(** * Abaqus MCP server: window locator, script submission and log scraping

    A shallow embedding of [mcp_server.py].  The server drives a running
    Abaqus/CAE through three collaborators (window enumeration, process
    introspection, the UI-automation backend) and the file system.  Every
    call to a collaborator is a [call]; the collaborators are an [oracle]
    that answers each call, knowing the calls made so far, with a value or
    with a Python exception.  The two module globals (the session cache),
    the temporary files on disk and the list of calls made are the [world]
    that the operations thread through.

    Left out, as they answer nothing and change nothing the operations
    read: the [print] calls, the [time.sleep] pauses and
    [timings.Timings.slow()]. *)

From Stdlib Require Import String Ascii List ZArith Bool Lia.
Import ListNotations.
Local Open Scope string_scope.
Local Open Scope list_scope.

(** ** Python strings

    Strings are sequences of ASCII characters; [lower] and [strip] are the
    restrictions of [str.lower] and [str.strip] to that range. *)

Module PyStr.

(** [needle in hay] *)
Fixpoint contains (needle hay : string) : bool :=
  String.prefix needle hay ||
  match hay with
  | EmptyString => false
  | String _ rest => contains needle rest
  end.

(** [s.startswith(p)] *)
Definition startswith (s p : string) : bool := String.prefix p s.

Definition lower_char (c : ascii) : ascii :=
  let n := nat_of_ascii c in
  if (65 <=? n)%nat && (n <=? 90)%nat then ascii_of_nat (n + 32) else c.

(** [s.lower()] *)
Fixpoint lower (s : string) : string :=
  match s with
  | EmptyString => EmptyString
  | String c rest => String (lower_char c) (lower rest)
  end.

(** [c.isspace()]: tab, line feed, vertical tab, form feed, carriage
    return, the four separators 0x1c-0x1f and the space. *)
Definition is_space (c : ascii) : bool :=
  let n := nat_of_ascii c in
  ((9 <=? n)%nat && (n <=? 13)%nat) || ((28 <=? n)%nat && (n <=? 32)%nat).

(** [s.lstrip()] *)
Fixpoint lstrip (s : string) : string :=
  match s with
  | EmptyString => EmptyString
  | String c rest => if is_space c then lstrip rest else s
  end.

(** [s.rstrip()] *)
Fixpoint rstrip (s : string) : string :=
  match s with
  | EmptyString => EmptyString
  | String c rest =>
      match rstrip rest with
      | EmptyString => if is_space c then EmptyString else String c EmptyString
      | r => String c r
      end
  end.

(** [s.strip()] *)
Definition strip (s : string) : string := rstrip (lstrip s).

(** [sep.join(l)] *)
Fixpoint join (sep : string) (l : list string) : string :=
  match l with
  | [] => EmptyString
  | [x] => x
  | x :: rest => (x ++ sep ++ join sep rest)%string
  end.

(** [s.replace(a, b)] for single characters [a] and [b] *)
Fixpoint replace_char (a b : ascii) (s : string) : string :=
  match s with
  | EmptyString => EmptyString
  | String c rest => String (if Ascii.eqb c a then b else c) (replace_char a b rest)
  end.

(** Truth value of a string: [bool(s)] *)
Definition truthy (s : string) : bool :=
  match s with EmptyString => false | _ => true end.

Definition newline : string := String (ascii_of_nat 10) EmptyString.

(** First and last character, when there is one. *)
Definition first_char (s : string) : option ascii := get 0 s.
Definition last_char (s : string) : option ascii := get (String.length s - 1) s.

End PyStr.

(** ** Text of a control

    [texts()] reports a list of line groups; a group may be [None] or empty,
    and a line may be [None] or empty. *)

Definition line := option string.
Definition text_group := option (list line).
Definition texts := list text_group.

(** [if line:] *)
Definition line_truthy (l : line) : bool :=
  match l with Some s => PyStr.truthy s | None => false end.

(** [if text_group:] *)
Definition group_truthy (g : text_group) : bool :=
  match g with Some (_ :: _) => true | _ => false end.

Definition group_lines (g : text_group) : list line :=
  match g with Some ls => ls | None => [] end.

Definition line_text (l : line) : string :=
  match l with Some s => s | None => EmptyString end.

(** The inner loop of lines 303-305: every truthy line is appended to
    [log_content_lines]. *)
Fixpoint append_lines (text_group : list line) (log_content_lines : list string)
  : list string :=
  match text_group with
  | [] => log_content_lines
  | l :: rest =>
      append_lines rest
        (if line_truthy l then log_content_lines ++ [line_text l]
         else log_content_lines)
  end.

(** The outer loop of lines 301-305. *)
Fixpoint collect_lines (raw_texts : texts) (log_content_lines : list string)
  : list string :=
  match raw_texts with
  | [] => log_content_lines
  | g :: rest =>
      collect_lines rest
        (if group_truthy g then append_lines (group_lines g) log_content_lines
         else log_content_lines)
  end.

(** Lines 299-307: ["\n".join(log_content_lines).strip()]. *)
Definition flatten_log (raw_texts : texts) : string :=
  PyStr.strip (PyStr.join PyStr.newline (collect_lines raw_texts [])).

(** The lines that survive, said declaratively: the non-empty lines of the
    groups, in order. *)
Definition kept_lines (raw_texts : texts) : list string :=
  flat_map (fun g => map line_text (filter line_truthy (group_lines g))) raw_texts.

(** A line is blank when nothing is left of it after [strip()]; this is the
    test the two heuristics apply to a line. *)
Definition blank (s : string) : bool := negb (PyStr.truthy (PyStr.strip s)).

(** The flattening as the specification words it: blank and null lines are
    discarded, the rest joined by newlines and trimmed. *)
Definition flatten_discarding_blank (raw_texts : texts) : string :=
  PyStr.strip
    (PyStr.join PyStr.newline
       (filter (fun s => negb (blank s)) (kept_lines raw_texts))).

(** ** Python values, exceptions and results *)

(** The exception classes the handlers of the module tell apart.  All of
    them derive from [Exception]. *)
Inductive exn_class : Type :=
| TimeoutError        (* pywinauto.timings.TimeoutError *)
| NoSuchProcess       (* psutil.NoSuchProcess *)
| AccessDenied        (* psutil.AccessDenied *)
| ZombieProcess       (* psutil.ZombieProcess *)
| TypeError
| AttributeError
| UnicodeEncodeError
| OtherException.     (* any other subclass of Exception *)

Record exn : Type := mkExn { exn_cls : exn_class; exn_msg : string }.

(** [str(e)] *)
Definition str (e : exn) : string := exn_msg e.

Inductive result (A : Type) : Type :=
| Ok (a : A)
| Raise (e : exn).
Arguments Ok {A} a.
Arguments Raise {A} e.

Definition is_ok {A} (r : result A) : bool :=
  match r with Ok _ => true | Raise _ => false end.

(** An attribute of a rectangle is either a plain number or a callable
    returning one.  pywinauto's [RECT.width] and [RECT.height] are methods,
    and the test-suite mocks both as callables. *)
Inductive pyval : Type :=
| PyInt (z : Z)
| PyCallable (returns : Z).

(** [v > n] *)
Definition py_gt (v : pyval) (n : Z) : result bool :=
  match v with
  | PyInt z => Ok (n <? z)%Z
  | PyCallable _ =>
      Raise (mkExn TypeError
               "'>' not supported between instances of 'method' and 'int'")
  end.

(** [v()] *)
Definition py_call (v : pyval) : result Z :=
  match v with
  | PyCallable z => Ok z
  | PyInt _ => Raise (mkExn TypeError "'int' object is not callable")
  end.

Record rect : Type := mkRect { height : pyval; width : pyval }.

(** ** Collaborator objects and calls *)

(** Objects of the collaborators are opaque handles. *)
Definition app := nat.     (* a connected pywinauto Application *)
Definition elem := nat.    (* a WindowSpecification or element wrapper *)
Definition proc := nat.    (* a psutil.Process *)

(** A window reported by pygetwindow. *)
Record win_ref : Type := mkWin { title : string; hWnd : Z }.

(** The keyword arguments of [child_window]. *)
Inductive criteria : Type :=
| ByTitle (title control_type : string)
| ByTitleRe (title_re control_type : string)
| ByIndex (control_type : string) (found_index : Z).

Inductive call : Type :=
(* pygetwindow, win32process, psutil *)
| GetWindowsWithTitle (t : string)
| GetWindowThreadProcessId (hwnd : Z)
| Process (pid : Z)
| ProcName (p : proc)
(* pywinauto application *)
| Connect (hwnd : Z) (timeout : Z)
| AppWindow (a : app) (hwnd : Z)
| TopWindow (a : app)
| Active (a : app)
(* pywinauto windows and controls *)
| Exists (e : elem) (timeout : option Z)
| IsVisible (e : elem)
| IsMinimized (e : elem)
| Restore (e : elem)
| SetFocus (e : elem)
| MenuSelect (e : elem) (path : string)
| WindowText (e : elem)
| Children (e : elem)
| ChildWindow (e : elem) (c : criteria)
| BestMatch (e : elem) (name : string) (found_index : Z)
| WrapperObject (e : elem)
| SetEditText (e : elem) (text : string)
| ClickInput (e : elem)
| Close (e : elem)
| Descendants (e : elem) (control_type : string)
| Rectangle (e : elem)
| ClassName (e : elem)
| Texts (e : elem)
| IsEditable (e : elem)
(* tempfile, os *)
| NamedTemporaryFile
| FileWrite (path content : string)
| FileClose (path : string)
| OsRemove (path : string).

(** What a call returns when it does not raise. *)
Definition ret_ty (c : call) : Type :=
  match c with
  | GetWindowsWithTitle _ => list win_ref
  | GetWindowThreadProcessId _ => Z
  | Process _ => proc
  | ProcName _ => string
  | Connect _ _ => app
  | AppWindow _ _ => elem
  | TopWindow _ => elem
  | Active _ => elem
  | Exists _ _ => bool
  | IsVisible _ => bool
  | IsMinimized _ => bool
  | Restore _ => unit
  | SetFocus _ => unit
  | MenuSelect _ _ => unit
  | WindowText _ => string
  | Children _ => list elem
  | ChildWindow _ _ => elem
  | BestMatch _ _ _ => elem
  | WrapperObject _ => elem
  | SetEditText _ _ => unit
  | ClickInput _ => unit
  | Close _ => unit
  | Descendants _ _ => list elem
  | Rectangle _ => rect
  | ClassName _ => string
  | Texts _ => texts
  | IsEditable _ => bool
  | NamedTemporaryFile => string
  | FileWrite _ _ => unit
  | FileClose _ => unit
  | OsRemove _ => unit
  end.

(** The collaborators: the answer to a call may depend on every call made
    before it. *)
Definition oracle : Type := forall (history : list call) (c : call), result (ret_ty c).

(** ** The state of the server process *)

Record world : Type := mkWorld {
  abaqus_app_instance_cache : option app;       (* module global, line 19 *)
  abaqus_main_window_cache : option elem;       (* module global, line 18 *)
  script_file_path : option string;             (* local of execute_script, read by its finally clause *)
  files : list string;                          (* temporary files on disk *)
  trace : list call                             (* collaborator calls so far *)
}.

Definition initial_world : world := mkWorld None None None [] [].

Definition caches (w : world) : option app * option elem :=
  (abaqus_app_instance_cache w, abaqus_main_window_cache w).

(** The two cache variables are both empty or both set. *)
Definition cache_consistent (w : world) : Prop :=
  match caches w with
  | (None, None) | (Some _, Some _) => True
  | _ => False
  end.

(** ** The monad of operations: state and exceptions *)

Definition M (A : Type) : Type := world -> result A * world.

Definition ret {A} (a : A) : M A := fun w => (Ok a, w).

Definition raise {A} (e : exn) : M A := fun w => (Raise e, w).

Definition bind {A B} (m : M A) (k : A -> M B) : M B :=
  fun w =>
    match m w with
    | (Ok a, w') => k a w'
    | (Raise e, w') => (Raise e, w')
    end.

Declare Scope py_scope.
Delimit Scope py_scope with py.
Notation "x <- m ;; k" := (bind m (fun x => k))
  (at level 100, m at next level, right associativity) : py_scope.
Notation "m ;; k" := (bind m (fun _ => k))
  (at level 100, right associativity) : py_scope.
Local Open Scope py_scope.

(** [try: body  except <classes>: handler] *)
Definition try_except {A} (body : M A) (handles : exn -> bool) (handler : exn -> M A)
  : M A :=
  fun w =>
    match body w with
    | (Ok a, w') => (Ok a, w')
    | (Raise e, w') => if handles e then handler e w' else (Raise e, w')
    end.

(** [try: body  finally: final]; an exception of [final] replaces the
    outcome of [body]. *)
Definition try_finally {A} (body : M A) (final : M unit) : M A :=
  fun w =>
    match body w with
    | (r, w') =>
        match final w' with
        | (Ok _, w'') => (r, w'')
        | (Raise e, w'') => (Raise e, w'')
        end
    end.

(** [except Exception] and the bare [except:] *)
Definition any_exception (e : exn) : bool := true.

(** [except (psutil.NoSuchProcess, psutil.AccessDenied, psutil.ZombieProcess)] *)
Definition psutil_error (e : exn) : bool :=
  match exn_cls e with
  | NoSuchProcess | AccessDenied | ZombieProcess => true
  | _ => false
  end.

(** [except timings.TimeoutError] *)
Definition timeout_error (e : exn) : bool :=
  match exn_cls e with TimeoutError => true | _ => false end.

(** Reads and writes of the globals and of the local. *)
Definition get_app_cache : M (option app) := fun w => (Ok (abaqus_app_instance_cache w), w).
Definition get_window_cache : M (option elem) := fun w => (Ok (abaqus_main_window_cache w), w).
Definition get_script_file_path : M (option string) := fun w => (Ok (script_file_path w), w).

Definition set_app_cache (v : option app) : M unit :=
  fun w => (Ok tt, mkWorld v (abaqus_main_window_cache w) (script_file_path w) (files w) (trace w)).
Definition set_window_cache (v : option elem) : M unit :=
  fun w => (Ok tt, mkWorld (abaqus_app_instance_cache w) v (script_file_path w) (files w) (trace w)).
Definition set_script_file_path (v : option string) : M unit :=
  fun w => (Ok tt, mkWorld (abaqus_app_instance_cache w) (abaqus_main_window_cache w) v (files w) (trace w)).

Definition log (c : call) (w : world) : world :=
  mkWorld (abaqus_app_instance_cache w) (abaqus_main_window_cache w)
          (script_file_path w) (files w) (trace w ++ [c]).

Definition with_files (fs : list string) (w : world) : world :=
  mkWorld (abaqus_app_instance_cache w) (abaqus_main_window_cache w)
          (script_file_path w) fs (trace w).

Definition on_disk (path : string) (w : world) : bool :=
  existsb (String.eqb path) (files w).

(** ** The operations of [mcp_server.py] *)

Section Server.

Variable env : oracle.

(** A call to a collaborator: the oracle answers from the calls made so
    far, and the call is recorded. *)
Definition ask (c : call) : M (ret_ty c) :=
  fun w => (env (trace w) c, log c w).

Definition lift {A} (r : result A) : M A := fun w => (r, w).

(** The methods of the collaborators, at their types. *)
Definition getWindowsWithTitle (t : string) : M (list win_ref) := ask (GetWindowsWithTitle t).
Definition getWindowThreadProcessId (hwnd : Z) : M Z := ask (GetWindowThreadProcessId hwnd).
Definition psutil_Process (pid : Z) : M proc := ask (Process pid).
Definition proc_name (p : proc) : M string := ask (ProcName p).
Definition app_connect (hwnd timeout : Z) : M app := ask (Connect hwnd timeout).
Definition app_window (a : app) (hwnd : Z) : M elem := ask (AppWindow a hwnd).
Definition exists_ (e : elem) : M bool := ask (Exists e None).
Definition exists_within (e : elem) (timeout : Z) : M bool := ask (Exists e (Some timeout)).
Definition is_visible (e : elem) : M bool := ask (IsVisible e).
Definition is_minimized (e : elem) : M bool := ask (IsMinimized e).
Definition restore (e : elem) : M unit := ask (Restore e).
Definition set_focus (e : elem) : M unit := ask (SetFocus e).
Definition menu_select (e : elem) (path : string) : M unit := ask (MenuSelect e path).
Definition window_text (e : elem) : M string := ask (WindowText e).
Definition children (e : elem) : M (list elem) := ask (Children e).
Definition child_window (e : elem) (c : criteria) : M elem := ask (ChildWindow e c).
Definition best_match (e : elem) (name : string) (found_index : Z) : M elem :=
  ask (BestMatch e name found_index).
Definition wrapper_object (e : elem) : M elem := ask (WrapperObject e).
Definition set_edit_text (e : elem) (text : string) : M unit := ask (SetEditText e text).
Definition click_input (e : elem) : M unit := ask (ClickInput e).
Definition close (e : elem) : M unit := ask (Close e).
Definition descendants (e : elem) (control_type : string) : M (list elem) :=
  ask (Descendants e control_type).
Definition rectangle (e : elem) : M rect := ask (Rectangle e).
Definition class_name (e : elem) : M string := ask (ClassName e).
Definition get_texts (e : elem) : M texts := ask (Texts e).
Definition is_editable (e : elem) : M bool := ask (IsEditable e).
Definition file_write (path content : string) : M unit := ask (FileWrite path content).
Definition file_close (path : string) : M unit := ask (FileClose path).

(** [tempfile.NamedTemporaryFile(mode="w", suffix=".py", delete=False,
    encoding='utf-8')]: the file is on disk once the call returns. *)
Definition named_temporary_file : M string :=
  fun w =>
    match ask NamedTemporaryFile w with
    | (Ok name, w') => (Ok name, with_files (name :: files w') w')
    | (Raise e, w') => (Raise e, w')
    end.

(** [with NamedTemporaryFile(...) as tmp_script: body]: the file is
    closed when the block is left, however it is left; it is not removed
    ([delete=False]). *)
Definition with_named_temporary_file {A} (body : string -> M A) : M A :=
  name <- named_temporary_file ;;
  fun w =>
    match body name w with
    | (r, w') =>
        match ask (FileClose name) w' with
        | (Ok _, w'') => (r, w'')
        | (Raise e, w'') => (Raise e, w'')
        end
    end.

(** [os.path.exists(path)] *)
Definition os_path_exists (path : string) : M bool :=
  fun w => (Ok (on_disk path w), w).

(** [os.remove(path)] *)
Definition os_remove (path : string) : M unit :=
  fun w =>
    match ask (OsRemove path) w with
    | (Ok _, w') =>
        (Ok tt, with_files (filter (fun f => negb (String.eqb path f)) (files w')) w')
    | (Raise e, w') => (Raise e, w')
    end.

(** *** Window locator, lines 21-72 *)

(** Lines 51-54: the owning process is an Abaqus CAE or Viewer. *)
Definition owned_by_abaqus (win : win_ref) : M bool :=
  pid <- getWindowThreadProcessId (hWnd win) ;;
  p <- psutil_Process pid ;;
  n1 <- proc_name p ;;
  if PyStr.contains "abaqus" (PyStr.lower n1) then
    n2 <- proc_name p ;;
    if PyStr.contains "cae" (PyStr.lower n2) then ret true
    else
      n3 <- proc_name p ;;
      ret (PyStr.contains "viewer" (PyStr.lower n3))
  else ret false.

(** Lines 47-58: the loop over the enumerated windows; the result is
    [found_win_obj]. *)
Fixpoint scan_windows (windows : list win_ref) : M (option win_ref) :=
  match windows with
  | [] => ret None
  | win_ref :: rest =>
      if PyStr.startswith (title win_ref) "Abaqus/CAE" then
        owned <- try_except (owned_by_abaqus win_ref) psutil_error
                   (fun _ => ret false) ;;
        if owned then ret (Some win_ref) else scan_windows rest
      else scan_windows rest
  end.

(** Lines 62-68, the body of the [try]: connect, fetch the window, and
    cache the pair when the window exists and is visible. *)
Definition connect_window (found_win_obj : win_ref) : M (option (app * elem)) :=
  a <- app_connect (hWnd found_win_obj) 20 ;;
  main_window <- app_window a (hWnd found_win_obj) ;;
  ex <- exists_ main_window ;;
  vis <- (if ex then is_visible main_window else ret false) ;;
  if vis then
    set_app_cache (Some a) ;;
    set_window_cache (Some main_window) ;;
    ret (Some (a, main_window))
  else ret None.

(** Lines 39-40: the cached pair is present and its window passes both
    checks ([and] evaluates left to right and stops at the first false). *)
Definition cache_hit : M bool :=
  app_c <- get_app_cache ;;
  win_c <- get_window_cache ;;
  match app_c, win_c with
  | Some _, Some main_window =>
      ex <- exists_ main_window ;;
      if ex then is_visible main_window else ret false
  | _, _ => ret false
  end.

(** Lines 46-58: enumeration and selection. *)
Definition locate : M (option win_ref) :=
  windows <- getWindowsWithTitle "Abaqus/CAE" ;;
  scan_windows windows.

(** Lines 43-72: the cold path. *)
Definition discover : M (option app * option elem) :=
  set_app_cache None ;;
  set_window_cache None ;;
  found_win_obj <- locate ;;
  match found_win_obj with
  | Some win =>
      r <- try_except (connect_window win) any_exception (fun _ => ret None) ;;
      match r with
      | Some (a, main_window) => ret (Some a, Some main_window)
      | None => ret (None, None)
      end
  | None => ret (None, None)
  end.

Definition find_abaqus_window_and_app : M (option app * option elem) :=
  hit <- cache_hit ;;
  if hit then
    app_c <- get_app_cache ;;
    win_c <- get_window_cache ;;
    ret (app_c, win_c)
  else discover.

(** *** Script submission, lines 78-221 *)

(** [app.top_window()] and [app.active()]; [app] is whatever the locator
    returned. *)
Definition top_window (a : option app) : M elem :=
  match a with
  | Some a => (ask (TopWindow a) : M elem)
  | None => raise (mkExn AttributeError "'NoneType' object has no attribute 'top_window'")
  end.

Definition active (a : option app) : M elem :=
  match a with
  | Some a => (ask (Active a) : M elem)
  | None => raise (mkExn AttributeError "'NoneType' object has no attribute 'active'")
  end.

(** [d.exists() and ("Run Script" in d.window_text() or
    "Select file" in d.window_text())] *)
Definition is_run_script_dialog (d : elem) : M bool :=
  ex <- exists_ d ;;
  if ex then
    t1 <- window_text d ;;
    if PyStr.contains "Run Script" t1 then ret true
    else
      t2 <- window_text d ;;
      ret (PyStr.contains "Select file" t2)
  else ret false.

(** Lines 143-147: the loop over the child windows.  The pair is
    ([run_script_dialog], [dialog_found]) as the loop leaves them. *)
Fixpoint search_children (possible_dialogs : list elem) (run_script_dialog : elem)
  : M (elem * bool) :=
  match possible_dialogs with
  | [] => ret (run_script_dialog, false)
  | diag :: rest =>
      ok <- is_run_script_dialog diag ;;
      if ok then ret (diag, true) else search_children rest run_script_dialog
  end.

Definition dialog_not_found : exn :=
  mkExn OtherException "'Run Script' dialog not found or title mismatch after menu click.".

(** Lines 125-150, the body of the inner [try]: the variables
    [run_script_dialog] and [dialog_found] are threaded through the three
    attempts.  A window object is always truthy, so the final test is on
    [dialog_found]. *)
Definition identify_dialog (a : option app) (main_window : elem) : M elem :=
  run_script_dialog <- top_window a ;;
  dialog_found <- is_run_script_dialog run_script_dialog ;;
  st <- (if negb dialog_found then
           d <- active a ;;
           ok <- is_run_script_dialog d ;;
           ret (d, ok)
         else ret (run_script_dialog, dialog_found)) ;;
  st <- (if negb (snd st) then
           possible_dialogs <- children main_window ;;
           search_children possible_dialogs (fst st)
         else ret st) ;;
  if negb (snd st) then raise dialog_not_found else ret (fst st).

(** Lines 156-170 *)
Definition resolve_edit (run_script_dialog : elem) : M (option elem) :=
  potential_edit <- child_window run_script_dialog (ByTitle "File &name:" "Edit") ;;
  ex <- exists_within potential_edit 1 ;;
  if ex then
    e <- wrapper_object potential_edit ;; ret (Some e)
  else
    potential_edit_by_index <- child_window run_script_dialog (ByIndex "Edit" 0) ;;
    ex <- exists_within potential_edit_by_index 1 ;;
    if ex then
      e <- wrapper_object potential_edit_by_index ;; ret (Some e)
    else
      generic_edit <- best_match run_script_dialog "Edit" 0 ;;
      ex <- exists_within generic_edit 1 ;;
      if ex then ret (Some generic_edit) else ret None.

(** Lines 178-192 *)
Definition resolve_button (run_script_dialog : elem) : M (option elem) :=
  potential_button <- child_window run_script_dialog (ByTitleRe "OK|Run|Open" "Button") ;;
  ex <- exists_within potential_button 1 ;;
  if ex then
    b <- wrapper_object potential_button ;; ret (Some b)
  else
    potential_button_by_index <- child_window run_script_dialog (ByIndex "Button" 0) ;;
    ex <- exists_within potential_button_by_index 1 ;;
    if ex then
      b <- wrapper_object potential_button_by_index ;; ret (Some b)
    else
      generic_button <- best_match run_script_dialog "Button" 0 ;;
      ex <- exists_within generic_button 1 ;;
      if ex then ret (Some generic_button) else ret None.

(** Lines 156-199, the body of the second inner [try]. *)
Definition interact (run_script_dialog : elem)
           (script_file_path_for_dialog path : string) : M string :=
  file_name_edit <- resolve_edit run_script_dialog ;;
  match file_name_edit with
  | None =>
      raise (mkExn OtherException
               "File name input field (Edit control) not found in 'Run Script' dialog. Searched by title 'File &name:', then by type/index.")
  | Some edit =>
      set_edit_text edit script_file_path_for_dialog ;;
      ok_button <- resolve_button run_script_dialog ;;
      match ok_button with
      | None =>
          raise (mkExn OtherException
                   "OK/Run/Open button not found in 'Run Script' dialog. Searched by title regex 'OK|Run|Open', then by type/index.")
      | Some button =>
          click_input button ;;
          ret ("Script submitted for execution via File->Run Script: " ++ path)%string
      end
  end.

(** Lines 201-207, the handler of the second inner [try]. *)
Definition interact_failed (run_script_dialog : elem) (e_interact : exn) : M string :=
  ex <- exists_ run_script_dialog ;;
  (if ex then try_except (close run_script_dialog) any_exception (fun _ => ret tt)
   else ret tt) ;;
  ret ("Failed to interact with 'Run Script' dialog (e.g., input script path or click OK): "
         ++ str e_interact)%string.

(** Lines 111-113: the script goes to a temporary file, whose path is
    recorded in [script_file_path] once the text is written. *)
Definition write_script_file (python_code : string) : M string :=
  with_named_temporary_file (fun tmp_name =>
    file_write tmp_name python_code ;;
    set_script_file_path (Some tmp_name) ;;
    ret tmp_name).

(** Lines 111-123: the script file is written, the main window gets the
    focus and the menu entry is selected.  The result is the path of the
    file. *)
Definition open_run_script (python_code : string) (main_window : elem) : M string :=
  path <- write_script_file python_code ;;
  minimized <- is_minimized main_window ;;
  (if minimized then restore main_window else ret tt) ;;
  set_focus main_window ;;
  menu_select main_window "File->Run Script..." ;;
  ret path.

(** Lines 125-207: the two inner [try] statements. *)
Definition fill_dialog (a : option app) (main_window : elem)
           (script_file_path_for_dialog path : string) : M string :=
  found <- try_except (d <- identify_dialog a main_window ;; ret (inl d))
             any_exception
             (fun e_dialog =>
                ret (inr ("Failed to find or identify the 'Run Script' dialog: "
                            ++ str e_dialog)%string)) ;;
  match found with
  | inr message => ret message
  | inl run_script_dialog =>
      try_except (interact run_script_dialog script_file_path_for_dialog path)
        any_exception (interact_failed run_script_dialog)
  end.

(** Lines 111-207, the body of the outer [try]. *)
Definition submit (python_code : string) (a : option app) (main_window : elem)
  : M string :=
  path <- open_run_script python_code main_window ;;
  let script_file_path_for_dialog := PyStr.replace_char "/" "\" path in
  fill_dialog a main_window script_file_path_for_dialog path.

(** Lines 209-216, the two handlers of the outer [try]. *)
Definition submit_failed (e : exn) : M string :=
  set_app_cache None ;;
  set_window_cache None ;;
  if timeout_error e then ret ("Timeout occurred during GUI operation: " ++ str e)%string
  else ret ("An error occurred during script execution attempt: " ++ str e)%string.

(** Lines 217-221, the [finally] clause. *)
Definition remove_script_file : M unit :=
  p <- get_script_file_path ;;
  match p with
  | Some path =>
      present <- (if PyStr.truthy path then os_path_exists path else ret false) ;;
      if present then try_except (os_remove path) any_exception (fun _ => ret tt)
      else ret tt
  | None => ret tt
  end.

Definition window_not_found (message : string) : M string :=
  set_app_cache None ;;
  set_window_cache None ;;
  ret message.

(** Lines 101-103 and 248-250: the locator, then
    [not main_window or not main_window.exists()].  [None] stands for
    the branch that reports the missing window. *)
Definition acquire : M (option (option app * elem)) :=
  found <- find_abaqus_window_and_app ;;
  match snd found with
  | None => ret None
  | Some main_window =>
      ex <- exists_ main_window ;;
      if ex then ret (Some (fst found, main_window)) else ret None
  end.

Definition window_missing_for_script : string :=
  "Abaqus/CAE window not found. Please ensure Abaqus/CAE with GUI is running and not minimized initially.".

Definition window_missing_for_log : string :=
  "Abaqus/CAE window not found. Cannot retrieve message log.".

Definition execute_script (python_code : string) : M string :=
  session <- acquire ;;
  match session with
  | None => window_not_found window_missing_for_script
  | Some (a, main_window) =>
      set_script_file_path None ;;
      try_finally
        (try_except (submit python_code a main_window) any_exception submit_failed)
        remove_script_file
  end.

(** *** Log scraper, lines 227-325 *)

(** [any(line.strip() for line in group)]; a [None] line has no
    [strip]. *)
Fixpoint any_line_nonblank (group : list line) : result bool :=
  match group with
  | [] => Ok false
  | None :: _ =>
      Raise (mkExn AttributeError "'NoneType' object has no attribute 'strip'")
  | Some s :: rest =>
      if PyStr.truthy (PyStr.strip s) then Ok true else any_line_nonblank rest
  end.

(** [texts and any(line.strip() for group in texts if group for line in
    group)] *)
Fixpoint has_nonblank_line (t : texts) : result bool :=
  match t with
  | [] => Ok false
  | group :: rest =>
      if group_truthy group then
        match any_line_nonblank (group_lines group) with
        | Ok true => Ok true
        | Ok false => has_nonblank_line rest
        | Raise e => Raise e
        end
      else has_nonblank_line rest
  end.

(** Lines 273-278: the tests a pane has to pass, left to right. *)
Definition pane_qualifies (pane : elem) : M bool :=
  visible <- is_visible pane ;;
  if visible then
    r <- rectangle pane ;;
    tall <- lift (py_gt (height r) 100) ;;
    if tall then
      r <- rectangle pane ;;
      wd <- lift (py_call (width r)) ;;
      if (200 <? wd)%Z then
        cn <- class_name pane ;;
        if PyStr.contains "FXWindow" cn then
          t <- get_texts pane ;;
          lift (has_nonblank_line t)
        else ret false
      else ret false
    else ret false
  else ret false.

(** Lines 271-280: the loop of the pane heuristic. *)
Fixpoint pane_heuristic (possible_panes : list elem) : M (option elem) :=
  match possible_panes with
  | [] => ret None
  | pane_spec :: rest =>
      pane <- wrapper_object pane_spec ;;
      ok <- pane_qualifies pane ;;
      if ok then ret (Some pane) else pane_heuristic rest
  end.

(** Lines 288-290 *)
Definition edit_qualifies (edit : elem) : M bool :=
  visible <- is_visible edit ;;
  if visible then
    editable <- is_editable edit ;;
    if negb editable then
      r <- rectangle edit ;;
      tall <- lift (py_gt (height r) 50) ;;
      if tall then
        t <- get_texts edit ;;
        lift (has_nonblank_line t)
      else ret false
    else ret false
  else ret false.

(** Lines 286-292: the loop of the edit heuristic. *)
Fixpoint edit_heuristic (possible_edits : list elem) : M (option elem) :=
  match possible_edits with
  | [] => ret None
  | edit_spec :: rest =>
      edit <- wrapper_object edit_spec ;;
      ok <- edit_qualifies edit ;;
      if ok then ret (Some edit) else edit_heuristic rest
  end.

Definition message_area_not_found : string :=
  "Message area UI element not found using current heuristics. For reliable message log retrieval, please use an inspect tool to identify the specific properties (e.g., AutomationId, Name, ClassName) of the Abaqus message area and update this function's search logic.".

Definition message_area_empty : string :=
  "Found a potential message area UI element, but could not extract text content. The control might be custom, empty, or text extraction method failed. More specific inspect details are needed.".

Definition log_banner : string :=
  ("Message Log Content (best effort extraction):" ++ PyStr.newline
     ++ "------------------------" ++ PyStr.newline)%string.

Definition log_footer : string :=
  (PyStr.newline ++ "------------------------")%string.

(** Lines 298-320: extraction from the control that was found. *)
Definition extract (message_area_control : option elem) : M string :=
  match message_area_control with
  | None => ret message_area_not_found
  | Some control =>
      ex <- exists_ control ;;
      if ex then
        raw_texts <- get_texts control ;;
        let log_content := flatten_log raw_texts in
        log_content <- (if PyStr.truthy log_content then ret log_content
                        else t <- window_text control ;; ret (PyStr.strip t)) ;;
        if PyStr.truthy log_content
        then ret (log_banner ++ log_content ++ log_footer)%string
        else ret message_area_empty
      else ret message_area_not_found
  end.

(** Lines 256-320, the body of the [try]. *)
Definition scrape (main_window : elem) : M string :=
  possible_panes <- descendants main_window "Pane" ;;
  message_area_control <- pane_heuristic possible_panes ;;
  message_area_control <-
    match message_area_control with
    | Some c => ret (Some c)
    | None =>
        possible_edits <- descendants main_window "Edit" ;;
        edit_heuristic possible_edits
    end ;;
  extract message_area_control.

(** Lines 322-325 *)
Definition scrape_failed (e : exn) : M string :=
  set_app_cache None ;;
  set_window_cache None ;;
  ret ("An error occurred while trying to retrieve the Abaqus message log: " ++ str e)%string.

Definition get_abaqus_message_log : M string :=
  session <- acquire ;;
  match session with
  | None => window_not_found window_missing_for_log
  | Some (_, main_window) =>
      try_except (scrape main_window) any_exception scrape_failed
  end.

End Server.

(** ** Vocabulary of the properties *)

(** The world with both cache variables cleared (lines 43-44). *)
Definition forget (w : world) : world :=
  mkWorld None None (script_file_path w) (files w) (trace w).

(** The world after the calls [evs] were made and nothing else changed. *)
Definition extend (evs : list call) (w : world) : world :=
  mkWorld (abaqus_app_instance_cache w) (abaqus_main_window_cache w)
          (script_file_path w) (files w) (trace w ++ evs).

(** An operation relates every world to the world it leaves. *)
Definition keeps (R : world -> world -> Prop) {A} (m : M A) : Prop :=
  forall w, R w (snd (m w)).

(** The cache variables are left as they were. *)
Definition same_caches (w w' : world) : Prop := caches w' = caches w.

(** Calls were made, all of them in [P]; the earlier calls are still there. *)
Definition grows (P : call -> Prop) (w w' : world) : Prop :=
  exists evs, trace w' = trace w ++ evs /\ Forall P evs.

(** The path of the script file is recorded in the local
    [script_file_path], and the file is on disk. *)
Definition script_recorded (name : string) (w : world) : Prop :=
  script_file_path w = Some name /\ on_disk name w = true.

(** A recorded script file stays recorded and on disk. *)
Definition stays_recorded (name : string) (w w' : world) : Prop :=
  script_recorded name w -> script_recorded name w'.

(** An operation never raises. *)
Definition total {A} (m : M A) : Prop := forall w, exists a, fst (m w) = Ok a.

(** Whatever an operation returns satisfies [Q]. *)
Definition returns {A} (Q : A -> Prop) (m : M A) : Prop :=
  forall w a, fst (m w) = Ok a -> Q a.

(** A call that looks up or drives a control of the Run Script dialog. *)
Definition control_interaction (c : call) : bool :=
  match c with
  | ChildWindow _ _ | BestMatch _ _ _ | WrapperObject _
  | Exists _ (Some _) | SetEditText _ _ | ClickInput _ | Close _ => true
  | _ => false
  end.

Definition no_control (c : call) : Prop := control_interaction c = false.

(** *** Ownership of a window, when process introspection is stable *)

(** The three introspection calls answer by fixed tables. *)
Definition introspects (env : oracle)
           (pid_of : Z -> result Z) (process_of : Z -> result proc)
           (name_of : proc -> result string) : Prop :=
  (forall h hwnd, env h (GetWindowThreadProcessId hwnd) = pid_of hwnd) /\
  (forall h pid, env h (Process pid) = process_of pid) /\
  (forall h p, env h (ProcName p) = name_of p).

(** The executable name of the process that owns a window. *)
Definition owner_name (pid_of : Z -> result Z) (process_of : Z -> result proc)
           (name_of : proc -> result string) (hwnd : Z) : result string :=
  match pid_of hwnd with
  | Ok pid =>
      match process_of pid with
      | Ok p => name_of p
      | Raise e => Raise e
      end
  | Raise e => Raise e
  end.

(** The name has the core identifier and one of the two variants. *)
Definition qualifies (name : string) : bool :=
  PyStr.contains "abaqus" (PyStr.lower name) &&
  (PyStr.contains "cae" (PyStr.lower name) || PyStr.contains "viewer" (PyStr.lower name)).

(** A window passes the title check and the process check. *)
Definition candidate (owner : Z -> result string) (win : win_ref) : bool :=
  PyStr.startswith (title win) "Abaqus/CAE" &&
  match owner (hWnd win) with
  | Ok name => qualifies name
  | Raise _ => false
  end.

(** A failed lookup is one of the failures psutil reports. *)
Definition lookups_fail_with_psutil_errors (owner : Z -> result string)
           (windows : list win_ref) : Prop :=
  forall win e, In win windows -> owner (hWnd win) = Raise e -> psutil_error e = true.

(** The loop passes over a window: the title check fails, the owner's
    name lacks a marker, or the lookup fails with one of psutil's errors
    (line 57). *)
Definition skipped (owner : Z -> result string) (win : win_ref) : bool :=
  negb (PyStr.startswith (title win) "Abaqus/CAE") ||
  match owner (hWnd win) with
  | Ok name => negb (qualifies name)
  | Raise e => psutil_error e
  end.

(** The loop is left at a window by an exception: the title check passes
    and the lookup fails with an exception that line 57 does not catch. *)
Definition lookup_escapes (owner : Z -> result string) (win : win_ref) (e : exn) : Prop :=
  PyStr.startswith (title win) "Abaqus/CAE" = true /\
  owner (hWnd win) = Raise e /\
  psutil_error e = false.

(** *** Failure of the connection attempt of lines 62-68

    [h] is the list of calls made when the attempt starts. *)
Inductive connection_fails (env : oracle) (win : win_ref) (h : list call) : Prop :=
| connect_raises e :
    env h (Connect (hWnd win) 20) = Raise e ->
    connection_fails env win h
| window_raises a e :
    env h (Connect (hWnd win) 20) = Ok a ->
    env (h ++ [Connect (hWnd win) 20]) (AppWindow a (hWnd win)) = Raise e ->
    connection_fails env win h
| exists_raises a mw e :
    env h (Connect (hWnd win) 20) = Ok a ->
    env (h ++ [Connect (hWnd win) 20]) (AppWindow a (hWnd win)) = Ok mw ->
    env (h ++ [Connect (hWnd win) 20; AppWindow a (hWnd win)]) (Exists mw None) = Raise e ->
    connection_fails env win h
| window_absent a mw :
    env h (Connect (hWnd win) 20) = Ok a ->
    env (h ++ [Connect (hWnd win) 20]) (AppWindow a (hWnd win)) = Ok mw ->
    env (h ++ [Connect (hWnd win) 20; AppWindow a (hWnd win)]) (Exists mw None) = Ok false ->
    connection_fails env win h
| visible_raises a mw e :
    env h (Connect (hWnd win) 20) = Ok a ->
    env (h ++ [Connect (hWnd win) 20]) (AppWindow a (hWnd win)) = Ok mw ->
    env (h ++ [Connect (hWnd win) 20; AppWindow a (hWnd win)]) (Exists mw None) = Ok true ->
    env (h ++ [Connect (hWnd win) 20; AppWindow a (hWnd win); Exists mw None])
        (IsVisible mw) = Raise e ->
    connection_fails env win h
| window_hidden a mw :
    env h (Connect (hWnd win) 20) = Ok a ->
    env (h ++ [Connect (hWnd win) 20]) (AppWindow a (hWnd win)) = Ok mw ->
    env (h ++ [Connect (hWnd win) 20; AppWindow a (hWnd win)]) (Exists mw None) = Ok true ->
    env (h ++ [Connect (hWnd win) 20; AppWindow a (hWnd win); Exists mw None])
        (IsVisible mw) = Ok false ->
    connection_fails env win h.

(** *** Success of the connection attempt of lines 62-68

    The four calls of the attempt succeed and the window exists and is
    visible; [h] is the list of calls made when the attempt starts. *)
Definition connects (env : oracle) (win : win_ref) (h : list call)
           (a : app) (mw : elem) : Prop :=
  env h (Connect (hWnd win) 20) = Ok a /\
  env (h ++ [Connect (hWnd win) 20]) (AppWindow a (hWnd win)) = Ok mw /\
  env (h ++ [Connect (hWnd win) 20; AppWindow a (hWnd win)]) (Exists mw None) = Ok true /\
  env (h ++ [Connect (hWnd win) 20; AppWindow a (hWnd win); Exists mw None])
      (IsVisible mw) = Ok true.

(** The world with the pair stored in the two cache variables (lines
    66-67). *)
Definition remember (a : app) (mw : elem) (w : world) : world :=
  mkWorld (Some a) (Some mw) (script_file_path w) (files w) (trace w).

(** *** The check of the cached window, lines 39-40

    The calls the check makes on the cached window [mw] and how it ends;
    [h] is the list of calls made when the check starts. *)
Inductive cache_check (env : oracle) (mw : elem) (h : list call)
  : list call -> result bool -> Prop :=
| check_absent :
    env h (Exists mw None) = Ok false ->
    cache_check env mw h [Exists mw None] (Ok false)
| check_exists_raises e :
    env h (Exists mw None) = Raise e ->
    cache_check env mw h [Exists mw None] (Raise e)
| check_visibility b :
    env h (Exists mw None) = Ok true ->
    env (h ++ [Exists mw None]) (IsVisible mw) = Ok b ->
    cache_check env mw h [Exists mw None; IsVisible mw] (Ok b)
| check_visibility_raises e :
    env h (Exists mw None) = Ok true ->
    env (h ++ [Exists mw None]) (IsVisible mw) = Raise e ->
    cache_check env mw h [Exists mw None; IsVisible mw] (Raise e).

(** *** The dialog, when the windows answer by fixed tables *)

(** The title test of lines 129, 136 and 144. *)
Definition title_accepted (t : string) : bool :=
  PyStr.contains "Run Script" t || PyStr.contains "Select file" t.

(** What the application and its windows answer. *)
Record dialog_view : Type := mkView {
  top_of : app -> result elem;
  active_of : app -> result elem;
  children_of : elem -> result (list elem);
  exists_of : elem -> result bool;
  text_of : elem -> result string
}.

(** The five calls answer by the tables of the view. *)
Definition shows (env : oracle) (v : dialog_view) : Prop :=
  (forall h a, env h (TopWindow a) = top_of v a) /\
  (forall h a, env h (Active a) = active_of v a) /\
  (forall h e, env h (Children e) = children_of v e) /\
  (forall h e, env h (Exists e None) = exists_of v e) /\
  (forall h e, env h (WindowText e) = text_of v e).

(** A window is accepted as the dialog: it exists and its title passes the
    title test.  The title is not read when the window does not exist. *)
Definition accepted (v : dialog_view) (d : elem) : result bool :=
  match exists_of v d with
  | Ok true =>
      match text_of v d with
      | Ok t => Ok (title_accepted t)
      | Raise e => Raise e
      end
  | Ok false => Ok false
  | Raise e => Raise e
  end.

(** How a tier ends: it accepts a window, it declines, or it raises. *)
Inductive tier_outcome : Type :=
| Accepts (d : elem)
| Declines
| Fails (e : exn).

(** Tiers 1 and 2: a window is asked for and tested. *)
Definition window_tier (v : dialog_view) (r : result elem) : tier_outcome :=
  match r with
  | Ok d =>
      match accepted v d with
      | Ok true => Accepts d
      | Ok false => Declines
      | Raise e => Fails e
      end
  | Raise e => Fails e
  end.

(** Tier 3: the child windows are tested in order. *)
Fixpoint children_tier (v : dialog_view) (ds : list elem) : tier_outcome :=
  match ds with
  | [] => Declines
  | d :: rest =>
      match accepted v d with
      | Ok true => Accepts d
      | Ok false => children_tier v rest
      | Raise e => Fails e
      end
  end.

Definition child_windows_tier (v : dialog_view) (main_window : elem) : tier_outcome :=
  match children_of v main_window with
  | Ok ds => children_tier v ds
  | Raise e => Fails e
  end.

(** The search ends at the first tier that accepts or fails; when every
    tier declines, the exception of line 150 is raised. *)
Fixpoint first_outcome (tiers : list tier_outcome) : result elem :=
  match tiers with
  | [] => Raise dialog_not_found
  | Accepts d :: _ => Ok d
  | Fails e :: _ => Raise e
  | Declines :: rest => first_outcome rest
  end.

(** A call that tests a window: [exists()] or [window_text()]. *)
Definition probes (c : call) : bool :=
  match c with
  | Exists _ None | WindowText _ => true
  | _ => false
  end.

Definition probing (c : call) : Prop := probes c = true.

(** The window has answered that it exists, and has given a title that
    passes the title test. *)
Definition answered_as_dialog (env : oracle) (d : elem) : Prop :=
  (exists h, env h (Exists d None) = Ok true) /\
  (exists h t, env h (WindowText d) = Ok t /\ title_accepted t = true).

(** *** Worlds between operations

    The worlds the process can be in when no operation is running: the
    initial one, and those left by a call of the locator or of one of the
    two tools, whether it returned or raised. *)
Inductive reachable (env : oracle) : world -> Prop :=
| reach_initial : reachable env initial_world
| reach_find w :
    reachable env w -> reachable env (snd (find_abaqus_window_and_app env w))
| reach_execute w python_code :
    reachable env w -> reachable env (snd (execute_script env python_code w))
| reach_log w :
    reachable env w -> reachable env (snd (get_abaqus_message_log env w)).

(** *** The return values that report an error *)

Definition reports_missing_window (s : string) : bool :=
  String.prefix "Abaqus/CAE window not found." s.

Definition reports_caught_exception (s : string) : bool :=
  String.prefix "Timeout occurred during GUI operation: " s
  || String.prefix "An error occurred during script execution attempt: " s
  || String.prefix "An error occurred while trying to retrieve the Abaqus message log: " s.

Definition reports_dialog_not_found (s : string) : bool :=
  String.prefix "Failed to find or identify the 'Run Script' dialog: " s.

Definition reports_control_failure (s : string) : bool :=
  String.prefix "Failed to interact with 'Run Script' dialog" s.

(** The three ways the dialog steps of lines 125-207 end without raising. *)
Inductive dialog_report : string -> Prop :=
| report_not_found m :
    dialog_report ("Failed to find or identify the 'Run Script' dialog: " ++ m)
| report_control_failure m :
    dialog_report
      ("Failed to interact with 'Run Script' dialog (e.g., input script path or click OK): "
         ++ m)
| report_submitted path :
    dialog_report ("Script submitted for execution via File->Run Script: " ++ path).

(** The reports of the outer handlers, lines 209-216 and 322-325. *)
Inductive caught_report : string -> Prop :=
| report_timeout m :
    caught_report ("Timeout occurred during GUI operation: " ++ m)
| report_error m :
    caught_report ("An error occurred during script execution attempt: " ++ m)
| report_scrape_error m :
    caught_report
      ("An error occurred while trying to retrieve the Abaqus message log: " ++ m).

(** The three ways the scraping of lines 256-320 ends without raising. *)
Inductive scrape_report : string -> Prop :=
| report_no_area : scrape_report message_area_not_found
| report_empty_area : scrape_report message_area_empty
| report_content c : scrape_report (log_banner ++ c ++ log_footer).

(** The string is free of leading and trailing whitespace. *)
Definition trimmed (s : string) : bool :=
  match PyStr.first_char s with Some c => negb (PyStr.is_space c) | None => true end &&
  match PyStr.last_char s with Some c => negb (PyStr.is_space c) | None => true end.

(** ** Scenarios *)

(** A desktop on which nothing is found: no window, no element exists,
    every action succeeds. *)
Definition idle (c : call) : result (ret_ty c) :=
  match c return result (ret_ty c) with
  | GetWindowsWithTitle _ => Ok []
  | GetWindowThreadProcessId hwnd => Ok hwnd
  | Process pid => Ok (Z.to_nat pid)
  | ProcName _ => Ok ""
  | Connect _ _ => Ok 0
  | AppWindow _ _ => Ok 0
  | TopWindow _ => Ok 0
  | Active _ => Ok 0
  | Exists _ _ => Ok false
  | IsVisible _ => Ok false
  | IsMinimized _ => Ok false
  | Restore _ => Ok tt
  | SetFocus _ => Ok tt
  | MenuSelect _ _ => Ok tt
  | WindowText _ => Ok ""
  | Children _ => Ok []
  | ChildWindow _ _ => Ok 0
  | BestMatch _ _ _ => Ok 0
  | WrapperObject e => Ok e
  | SetEditText _ _ => Ok tt
  | ClickInput _ => Ok tt
  | Close _ => Ok tt
  | Descendants _ _ => Ok []
  | Rectangle _ => Ok (mkRect (PyCallable 0) (PyCallable 0))
  | ClassName _ => Ok ""
  | Texts _ => Ok []
  | IsEditable _ => Ok false
  | NamedTemporaryFile => Ok "C:/Temp/tmpk3x9.py"
  | FileWrite _ _ => Ok tt
  | FileClose _ => Ok tt
  | OsRemove _ => Ok tt
  end.

(** The process holds a session: connection 1 with main window 2. *)
Definition with_session : world := mkWorld (Some 1) (Some 2) None [] [].

(** Window enumeration raises. *)
Definition enumeration_fails : oracle := fun _ c =>
  match c return result (ret_ty c) with
  | GetWindowsWithTitle _ => Raise (mkExn OtherException "window enumeration failed")
  | other => idle other
  end.

(** The main window 2 is up, and no Run Script dialog ever shows. *)
Definition dialog_never_shows : oracle := fun _ c =>
  match c return result (ret_ty c) with
  | Exists 2 None => Ok true
  | IsVisible 2 => Ok true
  | other => idle other
  end.

(** The main window 2 is up, and writing the script to the temporary file
    fails: the text has a lone surrogate, which UTF-8 cannot encode. *)
Definition write_fails : oracle := fun _ c =>
  match c return result (ret_ty c) with
  | Exists 2 None => Ok true
  | IsVisible 2 => Ok true
  | FileWrite _ _ =>
      Raise (mkExn UnicodeEncodeError
               "'utf-8' codec can't encode character '\ud800' in position 0: surrogates not allowed")
  | other => idle other
  end.

(** The pane of [test_get_log_success_pane_heuristic]: visible, 150 high
    and 300 wide (both reported by callables), class SomeFXWindow, with
    three lines of text. *)
Definition pane_of_the_test : oracle := fun _ c =>
  match c return result (ret_ty c) with
  | Exists 2 None => Ok true
  | IsVisible 2 => Ok true
  | Descendants 2 "Pane" => Ok [5]
  | IsVisible 5 => Ok true
  | Exists 5 None => Ok true
  | Rectangle 5 => Ok (mkRect (PyCallable 150) (PyCallable 300))
  | ClassName 5 => Ok "SomeFXWindow"
  | Texts 5 => Ok [Some [Some "Line 1"; Some "Line 2"]; Some [Some ""; Some "Line 3"]]
  | other => idle other
  end.

(** The same pane on a backend whose rectangles carry the height as a plain
    number. *)
Definition pane_with_numeric_height : oracle := fun _ c =>
  match c return result (ret_ty c) with
  | Exists 2 None => Ok true
  | IsVisible 2 => Ok true
  | Descendants 2 "Pane" => Ok [5]
  | IsVisible 5 => Ok true
  | Exists 5 None => Ok true
  | Rectangle 5 => Ok (mkRect (PyInt 150) (PyCallable 300))
  | ClassName 5 => Ok "SomeFXWindow"
  | Texts 5 => Ok [Some [Some "Line 1"; Some "Line 2"]; Some [Some ""; Some "Line 3"]]
  | other => idle other
  end.

(** Three windows carry the title prefix: the first is a browser tab, the
    owner of the second cannot be inspected, the third is Abaqus/CAE. *)
Definition three_windows : list win_ref :=
  [mkWin "Abaqus/CAE User's Guide - Browser" 10;
   mkWin "Abaqus/CAE 2023 [Viewport: 1]" 20;
   mkWin "Abaqus/CAE 2023 - Model Database" 30].

Definition names_of_three (p : proc) : result string :=
  match p with
  | 10 => Ok "chrome.exe"
  | 20 => Raise (mkExn AccessDenied "psutil.AccessDenied (pid=20)")
  | 30 => Ok "abaqus_cae.exe"
  | _ => Ok ""
  end.

(** The desktop of [three_windows]; the connection to window 30 gives
    connection 1 and main window 2, which exists and is visible. *)
Definition desktop : oracle := fun _ c =>
  match c return result (ret_ty c) with
  | GetWindowsWithTitle _ => Ok three_windows
  | ProcName p => names_of_three p
  | Connect 30 20 => Ok 1
  | AppWindow 1 30 => Ok 2
  | Exists 2 None => Ok true
  | IsVisible 2 => Ok true
  | other => idle other
  end.

(** The desktop of [three_windows] on which connecting times out. *)
Definition connection_times_out : oracle := fun _ c =>
  match c return result (ret_ty c) with
  | GetWindowsWithTitle _ => Ok three_windows
  | ProcName p => names_of_three p
  | Connect _ _ => Raise (mkExn TimeoutError "timed out")
  | other => idle other
  end.

(** The process holds the session (7, 8) of an Abaqus/CAE that was
    closed. *)
Definition with_stale_session : world := mkWorld (Some 7) (Some 8) None [] [].

(** The cached main window 2 belongs to an Abaqus/CAE that was closed, and
    querying it raises; the Abaqus/CAE of [three_windows] is open. *)
Definition element_is_gone : exn :=
  mkExn OtherException
    "(-2147220991, 'An event was unable to invoke any of the subscribers', (None, None, None, 0, None))".

Definition cached_window_is_gone : oracle := fun _ c =>
  match c return result (ret_ty c) with
  | Exists 2 None => Raise element_is_gone
  | GetWindowsWithTitle _ => Ok three_windows
  | ProcName p => names_of_three p
  | Connect 30 20 => Ok 3
  | AppWindow 3 30 => Ok 4
  | Exists 4 None => Ok true
  | IsVisible 4 => Ok true
  | other => idle other
  end.

(** The view of [dialog_never_shows]: only the main window 2 exists, and
    no title is set. *)
Definition no_dialog_in_view : dialog_view :=
  mkView (fun _ => Ok 0) (fun _ => Ok 0) (fun _ => Ok [])
         (fun e => match e with 2 => Ok true | _ => Ok false end)
         (fun _ => Ok "").

(** The main window 2 is up; after the menu entry is selected, the Run
    Script dialog 9 is the active window of the application, and asking
    for its top window raises. *)
Definition top_window_raises : oracle := fun _ c =>
  match c return result (ret_ty c) with
  | Exists 2 None => Ok true
  | IsVisible 2 => Ok true
  | TopWindow _ => Raise (mkExn OtherException "No windows for that process could be found")
  | Active _ => Ok 9
  | Exists 9 None => Ok true
  | WindowText 9 => Ok "Run Script"
  | other => idle other
  end.

(** Two windows carry the title prefix: the first is closing and its
    handle is no longer valid, the second is Abaqus/CAE; the connection to
    window 30 gives connection 1 and main window 2, which exists and is
    visible. *)
Definition closing_then_open : list win_ref :=
  [mkWin "Abaqus/CAE 2023 [Viewport: 1]" 20;
   mkWin "Abaqus/CAE 2023 - Model Database" 30].

Definition invalid_handle : exn :=
  mkExn OtherException "(1400, 'GetWindowThreadProcessId', 'Invalid window handle.')".

Definition handle_is_stale : oracle := fun _ c =>
  match c return result (ret_ty c) with
  | GetWindowsWithTitle _ => Ok closing_then_open
  | GetWindowThreadProcessId 20 => Raise invalid_handle
  | ProcName p => names_of_three p
  | Connect 30 20 => Ok 1
  | AppWindow 1 30 => Ok 2
  | Exists 2 None => Ok true
  | IsVisible 2 => Ok true
  | other => idle other
  end.

(** ** Vocabulary of the further properties *)

(** A call that only queries the desktop or the application: it sends no
    input, changes no window and touches no file. *)
Definition observes (c : call) : bool :=
  match c with
  | GetWindowsWithTitle _ | GetWindowThreadProcessId _ | Process _ | ProcName _
  | Connect _ _ | AppWindow _ _ | Exists _ _ | IsVisible _ | WindowText _
  | Descendants _ _ | WrapperObject _ | Rectangle _ | ClassName _ | Texts _
  | IsEditable _ => true
  | _ => false
  end.

Definition observing (c : call) : Prop := observes c = true.

(** The files on disk are as they were and every call made was a query. *)
Definition only_observed (w w' : world) : Prop :=
  files w' = files w /\ grows observing w w'.

(** Every rectangle the backend reports carries its height as a callable,
    as [pywinauto]'s [RECT] does. *)
Definition callable_heights (env : oracle) : Prop :=
  forall h e r, env h (Rectangle e) = Ok r -> exists z, height r = PyCallable z.

(** Every character of the string is whitespace. *)
Fixpoint all_space (s : string) : bool :=
  match s with
  | EmptyString => true
  | String c rest => PyStr.is_space c && all_space rest
  end.

(** The texts of a control do not depend on when they are read. *)
Definition stable_texts (env : oracle) : Prop :=
  forall h1 h2 e, env h1 (Texts e) = env h2 (Texts e).

(** A call that types, types [text]. *)
Definition types_only (text : string) (c : call) : Prop :=
  match c with
  | SetEditText _ t => t = text
  | _ => True
  end.

(** A call is anything: the relation [grows anything] says that the
    earlier calls are still there. *)
Definition anything (c : call) : Prop := True.

(** A call that is not a click. *)
Definition clicks (c : call) : bool :=
  match c with ClickInput _ => true | _ => false end.

Definition no_click (c : call) : Prop := clicks c = false.

(** The path as it is typed into the dialog, line 115. *)
Definition for_dialog (path : string) : string := PyStr.replace_char "/" "\" path.

(** ** Flattening of the log text *)

Lemma append_lines_spec (group : list line) (acc : list string) :
  append_lines group acc = acc ++ map line_text (filter line_truthy group).
Proof.
  revert acc. induction group as [|l rest IH]; intros acc; simpl.
  - now rewrite app_nil_r.
  - rewrite IH. destruct (line_truthy l); simpl; [|reflexivity].
    now rewrite <- app_assoc.
Qed.

Lemma collect_lines_spec (raw : texts) (acc : list string) :
  collect_lines raw acc = acc ++ kept_lines raw.
Proof.
  revert acc. induction raw as [|g rest IH]; intros acc.
  - simpl. now rewrite app_nil_r.
  - change (kept_lines (g :: rest))
      with (map line_text (filter line_truthy (group_lines g)) ++ kept_lines rest).
    cbn [collect_lines]. rewrite IH.
    destruct g as [[|l ls]|]; cbn [group_truthy group_lines].
    + reflexivity.
    + rewrite append_lines_spec. now rewrite <- app_assoc.
    + reflexivity.
Qed.

Lemma lstrip_first (s : string) (c : ascii) :
  PyStr.first_char (PyStr.lstrip s) = Some c -> PyStr.is_space c = false.
Proof.
  induction s as [|a rest IH]; simpl; [discriminate|].
  destruct (PyStr.is_space a) eqn:Ha; [exact IH|].
  unfold PyStr.first_char. simpl. intros [= <-]. exact Ha.
Qed.

Lemma rstrip_first (s : string) (c : ascii) :
  PyStr.first_char (PyStr.rstrip s) = Some c -> PyStr.first_char s = Some c.
Proof.
  destruct s as [|a rest]; simpl; [discriminate|].
  destruct (PyStr.rstrip rest); [destruct (PyStr.is_space a)|]; simpl;
    unfold PyStr.first_char; simpl; congruence.
Qed.

Lemma last_char_cons (a b : ascii) (s : string) :
  PyStr.last_char (String a (String b s)) = PyStr.last_char (String b s).
Proof.
  unfold PyStr.last_char. simpl. now rewrite Nat.sub_0_r.
Qed.

Lemma rstrip_last (s : string) (c : ascii) :
  PyStr.last_char (PyStr.rstrip s) = Some c -> PyStr.is_space c = false.
Proof.
  induction s as [|a rest IH]; simpl; [discriminate|].
  destruct (PyStr.rstrip rest) as [|b r] eqn:Hr.
  - destruct (PyStr.is_space a) eqn:Ha; [discriminate|].
    unfold PyStr.last_char. simpl. intros [= <-]. exact Ha.
  - rewrite last_char_cons. exact IH.
Qed.

Lemma strip_trimmed (s : string) : trimmed (PyStr.strip s) = true.
Proof.
  unfold trimmed, PyStr.strip. apply andb_true_intro. split.
  - destruct (PyStr.first_char (PyStr.rstrip (PyStr.lstrip s))) as [c|] eqn:Hc;
      [|reflexivity].
    apply rstrip_first, lstrip_first in Hc. now rewrite Hc.
  - destruct (PyStr.last_char (PyStr.rstrip (PyStr.lstrip s))) as [c|] eqn:Hc;
      [|reflexivity].
    apply rstrip_last in Hc. now rewrite Hc.
Qed.

(** C8, as stated, fails: a line of whitespace is blank, and the flattening
    keeps it.  On the group [["a", " ", "b"]] the code returns the three
    lines, where discarding blank lines would leave two. *)
Lemma flatten_log_keeps_a_blank_line :
  let raw := [Some [Some "a"; Some " "; Some "b"]] in
  blank " " = true /\
  flatten_log raw = ("a" ++ PyStr.newline ++ " " ++ PyStr.newline ++ "b")%string /\
  flatten_discarding_blank raw = ("a" ++ PyStr.newline ++ "b")%string /\
  flatten_log raw <> flatten_discarding_blank raw.
Proof.
  cbv zeta. repeat split; try reflexivity. vm_compute. discriminate.
Qed.

(** C8, amended: the flattening drops the [None] and empty groups and the
    [None] and empty lines (a line of whitespace is kept), joins what is
    left with single newlines and strips the result, which therefore has no
    whitespace at either end; the text of the test flattens to its three
    non-empty lines. *)
Theorem flatten_log_keeps_nonempty_lines (raw : texts) :
  flatten_log raw = PyStr.strip (PyStr.join PyStr.newline (kept_lines raw)) /\
  trimmed (flatten_log raw) = true /\
  flatten_log [Some [Some "Line 1"; Some "Line 2"]; Some [Some ""; Some "Line 3"]]
  = ("Line 1" ++ PyStr.newline ++ "Line 2" ++ PyStr.newline ++ "Line 3")%string.
Proof.
  unfold flatten_log. rewrite collect_lines_spec. simpl app.
  repeat split.
  - apply strip_trimmed.
Qed.

(** ** Reasoning about operations *)

Lemma run_bind {A B} (m : M A) (k : A -> M B) (w : world) :
  bind m k w =
  match m w with
  | (Ok a, w') => k a w'
  | (Raise e, w') => (Raise e, w')
  end.
Proof. reflexivity. Qed.

Lemma run_bind_ok {A B} (m : M A) (k : A -> M B) (w w' : world) (a : A) :
  m w = (Ok a, w') -> bind m k w = k a w'.
Proof. intros H. unfold bind. now rewrite H. Qed.

Lemma run_bind_raise {A B} (m : M A) (k : A -> M B) (w w' : world) (e : exn) :
  m w = (Raise e, w') -> bind m k w = (Raise e, w').
Proof. intros H. unfold bind. now rewrite H. Qed.

Section Frames.

Variable R : world -> world -> Prop.
Hypothesis R_refl : forall w, R w w.
Hypothesis R_trans : forall w1 w2 w3, R w1 w2 -> R w2 w3 -> R w1 w3.

Lemma keeps_ret {A} (a : A) : keeps R (ret a).
Proof. intros w. apply R_refl. Qed.

Lemma keeps_raise {A} (e : exn) : keeps R (@raise A e).
Proof. intros w. apply R_refl. Qed.

Lemma keeps_lift {A} (r : result A) : keeps R (lift r).
Proof. intros w. apply R_refl. Qed.

Lemma keeps_get_app_cache : keeps R get_app_cache.
Proof. intros w. apply R_refl. Qed.

Lemma keeps_get_window_cache : keeps R get_window_cache.
Proof. intros w. apply R_refl. Qed.

Lemma keeps_get_script_file_path : keeps R get_script_file_path.
Proof. intros w. apply R_refl. Qed.

Lemma keeps_os_path_exists (path : string) : keeps R (os_path_exists path).
Proof. intros w. apply R_refl. Qed.

Lemma keeps_bind {A B} (m : M A) (k : A -> M B) :
  keeps R m -> (forall a, keeps R (k a)) -> keeps R (bind m k).
Proof.
  intros Hm Hk w. unfold bind. specialize (Hm w).
  destruct (m w) as [[a|e] w1]; simpl in *.
  - eapply R_trans; [exact Hm | apply Hk].
  - exact Hm.
Qed.

Lemma keeps_try_except {A} (body : M A) (handles : exn -> bool) (handler : exn -> M A) :
  keeps R body -> (forall e, keeps R (handler e)) ->
  keeps R (try_except body handles handler).
Proof.
  intros Hb Hh w. unfold try_except. specialize (Hb w).
  destruct (body w) as [[a|e] w1]; simpl in *; [exact Hb|].
  destruct (handles e); [|exact Hb].
  eapply R_trans; [exact Hb | apply Hh].
Qed.

Lemma keeps_try_finally {A} (body : M A) (final : M unit) :
  keeps R body -> keeps R final -> keeps R (try_finally body final).
Proof.
  intros Hb Hf w. unfold try_finally. specialize (Hb w).
  destruct (body w) as [r w1]. specialize (Hf w1). simpl in *.
  destruct (final w1) as [[u|e] w2]; simpl in *; eapply R_trans; eauto.
Qed.

Lemma keeps_with_named_temporary_file {A} (create : M string) (close_it : string -> M unit)
      (body : string -> M A) :
  keeps R create -> (forall name, keeps R (close_it name)) ->
  (forall name, keeps R (body name)) ->
  keeps R (name <- create ;;
           fun w => match body name w with
                    | (r, w') => match close_it name w' with
                                 | (Ok _, w'') => (r, w'')
                                 | (Raise e, w'') => (Raise e, w'')
                                 end
                    end).
Proof.
  intros Hc Hcl Hb. apply keeps_bind; [exact Hc|]. intros name w.
  specialize (Hb name w). destruct (body name w) as [r w1].
  specialize (Hcl name w1). simpl in *.
  destruct (close_it name w1) as [[u|e] w2]; simpl in *; eapply R_trans; eauto.
Qed.

End Frames.

(** The two relations are preorders. *)

Lemma same_caches_refl w : same_caches w w.
Proof. reflexivity. Qed.

Lemma same_caches_trans w1 w2 w3 :
  same_caches w1 w2 -> same_caches w2 w3 -> same_caches w1 w3.
Proof. unfold same_caches. congruence. Qed.

Lemma stays_recorded_refl name w : stays_recorded name w w.
Proof. intros H. exact H. Qed.

Lemma stays_recorded_trans name w1 w2 w3 :
  stays_recorded name w1 w2 -> stays_recorded name w2 w3 -> stays_recorded name w1 w3.
Proof. unfold stays_recorded. auto. Qed.

Lemma grows_refl P w : grows P w w.
Proof. exists []. split; [now rewrite app_nil_r | constructor]. Qed.

Lemma grows_trans P w1 w2 w3 : grows P w1 w2 -> grows P w2 w3 -> grows P w1 w3.
Proof.
  intros [e1 [H1 F1]] [e2 [H2 F2]]. exists (e1 ++ e2). split.
  - now rewrite H2, H1, app_assoc.
  - apply Forall_app. now split.
Qed.

(** A call made under [grows P] and already in [P] is an earlier call or
    satisfies [P]. *)
Lemma grows_In P w w' c : grows P w w' -> In c (trace w') -> In c (trace w) \/ P c.
Proof.
  intros [evs [H F]] Hin. rewrite H in Hin. apply in_app_or in Hin.
  destruct Hin as [Hin|Hin]; [now left|right].
  rewrite Forall_forall in F. now apply F.
Qed.

Section ServerFrames.

Variable env : oracle.

(** *** Primitives *)

Lemma ask_same_caches c : keeps same_caches (ask env c).
Proof. intros w. reflexivity. Qed.

Lemma ask_stays_recorded name c : keeps (stays_recorded name) (ask env c).
Proof. intros w H. exact H. Qed.

Lemma ask_grows (P : call -> Prop) c : P c -> keeps (grows P) (ask env c).
Proof. intros HP w. exists [c]. split; [reflexivity | now constructor]. Qed.

Lemma set_script_file_path_same_caches v : keeps same_caches (set_script_file_path v).
Proof. intros w. reflexivity. Qed.

Lemma set_app_cache_stays_recorded name v : keeps (stays_recorded name) (set_app_cache v).
Proof. intros w H. exact H. Qed.

Lemma set_window_cache_stays_recorded name v :
  keeps (stays_recorded name) (set_window_cache v).
Proof. intros w H. exact H. Qed.

Lemma set_app_cache_grows P v : keeps (grows P) (set_app_cache v).
Proof. intros w. exists []. split; [simpl; now rewrite app_nil_r | constructor]. Qed.

Lemma set_window_cache_grows P v : keeps (grows P) (set_window_cache v).
Proof. intros w. exists []. split; [simpl; now rewrite app_nil_r | constructor]. Qed.

Lemma set_script_file_path_grows P v : keeps (grows P) (set_script_file_path v).
Proof. intros w. exists []. split; [simpl; now rewrite app_nil_r | constructor]. Qed.

Lemma named_temporary_file_same_caches : keeps same_caches (named_temporary_file env).
Proof.
  intros w. unfold named_temporary_file, ask.
  destruct (env (trace w) NamedTemporaryFile); reflexivity.
Qed.

Lemma named_temporary_file_grows (P : call -> Prop) :
  P NamedTemporaryFile -> keeps (grows P) (named_temporary_file env).
Proof.
  intros HP w. unfold named_temporary_file, ask. exists [NamedTemporaryFile].
  destruct (env (trace w) NamedTemporaryFile); (split; [reflexivity | now constructor]).
Qed.

Lemma os_remove_same_caches path : keeps same_caches (os_remove env path).
Proof.
  intros w. unfold os_remove, ask.
  destruct (env (trace w) (OsRemove path)); reflexivity.
Qed.

Lemma os_remove_grows (P : call -> Prop) path :
  P (OsRemove path) -> keeps (grows P) (os_remove env path).
Proof.
  intros HP w. unfold os_remove, ask. exists [OsRemove path].
  destruct (env (trace w) (OsRemove path)); (split; [reflexivity | now constructor]).
Qed.

Lemma ask_quiet c : no_control c -> keeps (grows no_control) (ask env c).
Proof. apply ask_grows. Qed.

Lemma named_temporary_file_quiet : keeps (grows no_control) (named_temporary_file env).
Proof. apply named_temporary_file_grows. reflexivity. Qed.

Lemma os_remove_quiet path : keeps (grows no_control) (os_remove env path).
Proof. apply os_remove_grows. reflexivity. Qed.

Lemma with_named_temporary_file_keeps R {A} (body : string -> M A) :
  (forall w, R w w) -> (forall w1 w2 w3, R w1 w2 -> R w2 w3 -> R w1 w3) ->
  keeps R (named_temporary_file env) -> (forall name, keeps R (ask env (FileClose name))) ->
  (forall name, keeps R (body name)) ->
  keeps R (with_named_temporary_file env body).
Proof.
  intros Hr Ht Hc Hcl Hb. unfold with_named_temporary_file.
  apply (keeps_with_named_temporary_file R Ht _ (fun name => ask env (FileClose name)));
    assumption.
Qed.

End ServerFrames.

Create HintDb frames.

#[export] Hint Resolve
  set_script_file_path_same_caches set_app_cache_stays_recorded
  set_window_cache_stays_recorded
  set_app_cache_grows set_window_cache_grows set_script_file_path_grows
  named_temporary_file_same_caches os_remove_same_caches : frames.

(** One step of a frame proof: a rule of [Frames] for the head of the
    operation, a case split on what it branches on, or the fact about a
    primitive. *)
Ltac frame_step refl trans :=
  first
    [ assumption
    | match goal with H : context [keeps] |- _ => solve [apply H] end
    | apply (keeps_ret _ refl)
    | apply (keeps_raise _ refl)
    | apply (keeps_lift _ refl)
    | apply (keeps_get_app_cache _ refl)
    | apply (keeps_get_window_cache _ refl)
    | apply (keeps_get_script_file_path _ refl)
    | apply (keeps_os_path_exists _ refl)
    | apply (keeps_bind _ trans); [| intro]
    | apply (keeps_try_except _ trans); [| intro]
    | apply (keeps_try_finally _ trans)
    | apply with_named_temporary_file_keeps; [exact refl | exact trans | | intro | intro]
    | match goal with
      | |- keeps _ (if ?b then _ else _) => destruct b
      | |- keeps _ (match ?x with _ => _ end) => destruct x
      end
    | match goal with
      | |- keeps same_caches (ask ?e ?c) => exact (ask_same_caches e c)
      | |- keeps (stays_recorded ?n) (ask ?e ?c) => exact (ask_stays_recorded e n c)
      | |- keeps (grows no_control) (ask ?e ?c) => exact (ask_quiet e c eq_refl)
      end
    | apply named_temporary_file_quiet
    | apply os_remove_quiet
    | solve [auto with frames] ].

Ltac unfold_calls :=
  unfold getWindowsWithTitle, getWindowThreadProcessId, psutil_Process, proc_name,
    app_connect, app_window, exists_, exists_within, is_visible, is_minimized,
    restore, set_focus, menu_select, window_text, children, child_window,
    best_match, wrapper_object, set_edit_text, click_input, close, descendants,
    rectangle, class_name, get_texts, is_editable, file_write, file_close,
    top_window, active in *.

Ltac frame refl trans := repeat (unfold_calls; frame_step refl trans).

Ltac caches_frame := frame same_caches_refl same_caches_trans.
Ltac recorded_frame name :=
  frame (stays_recorded_refl name) (stays_recorded_trans name).
Ltac grows_frame := frame (grows_refl no_control) (grows_trans no_control).


Section LocatorFrames.

Variable env : oracle.

Lemma owned_by_abaqus_same_caches win : keeps same_caches (owned_by_abaqus env win).
Proof. unfold owned_by_abaqus. caches_frame. Qed.

Lemma scan_windows_same_caches windows : keeps same_caches (scan_windows env windows).
Proof.
  induction windows as [|win rest IH]; cbn [scan_windows].
  - caches_frame.
  - pose proof (owned_by_abaqus_same_caches win). caches_frame.
Qed.

Lemma locate_same_caches : keeps same_caches (locate env).
Proof.
  unfold locate. caches_frame. apply scan_windows_same_caches.
Qed.

Lemma owned_by_abaqus_grows win : keeps (grows no_control) (owned_by_abaqus env win).
Proof. unfold owned_by_abaqus. grows_frame. Qed.

Lemma scan_windows_grows windows : keeps (grows no_control) (scan_windows env windows).
Proof.
  induction windows as [|win rest IH]; cbn [scan_windows].
  - grows_frame.
  - pose proof (owned_by_abaqus_grows win). grows_frame.
Qed.

Lemma find_grows : keeps (grows no_control) (find_abaqus_window_and_app env).
Proof.
  pose proof scan_windows_grows.
  unfold find_abaqus_window_and_app, cache_hit, discover, locate, connect_window.
  grows_frame.
Qed.

Lemma acquire_grows : keeps (grows no_control) (acquire env).
Proof. pose proof find_grows. unfold acquire. grows_frame. Qed.

End LocatorFrames.

(** Case analysis on the next answer of the oracle. *)
Ltac next_answer :=
  match goal with
  | |- context [match ?f ?h ?c with Ok _ => _ | Raise _ => _ end] =>
      let r := fresh "r" in
      let E := fresh "E" in
      destruct (f h c) as [r|r] eqn:E; cbn -[String.append String.prefix]
  end.

(** Case analysis on the condition of the next conditional. *)
Ltac next_branch :=
  match goal with
  | |- context [if ?b then _ else _] =>
      destruct b eqn:?; cbn -[String.append String.prefix]
  end.

Ltac run := unfold_calls; unfold bind, ask, ret, raise, lift; cbn -[String.append String.prefix].

(** ** The window locator *)

Section Locator.

Variable env : oracle.

(** The connection attempt stores a pair exactly when it returns one. *)
Lemma connect_window_outcome win w :
  match connect_window env win w with
  | (Ok (Some (a, mw)), w') => caches w' = (Some a, Some mw)
  | (Ok None, w') => caches w' = caches w
  | (Raise _, w') => caches w' = caches w
  end.
Proof.
  unfold connect_window. run.
  next_answer; [|reflexivity].
  next_answer; [|reflexivity].
  next_answer; [|reflexivity].
  next_branch; [|reflexivity].
  next_answer; [|reflexivity].
  next_branch; reflexivity.
Qed.

Lemma cache_hit_same_caches : keeps same_caches (cache_hit env).
Proof. unfold cache_hit. caches_frame. Qed.

Lemma cache_hit_true w w' :
  cache_hit env w = (Ok true, w') ->
  exists a mw, caches w = (Some a, Some mw).
Proof.
  unfold cache_hit, get_app_cache, get_window_cache, caches. run.
  destruct (abaqus_app_instance_cache w) as [a|];
    destruct (abaqus_main_window_cache w) as [mw|]; cbn; try discriminate.
  intros _. now exists a, mw.
Qed.

(** The cold path ends with both variables cleared, or with the pair it
    returns in both of them. *)
Lemma discover_outcome w :
  match discover env w with
  | (Ok (Some a, Some mw), w') => caches w' = (Some a, Some mw)
  | (Ok (None, None), w') => caches w' = (None, None)
  | (Ok _, _) => False
  | (Raise _, w') => caches w' = (None, None)
  end.
Proof.
  unfold discover.
  rewrite run_bind. cbn [set_app_cache]. rewrite run_bind. cbn [set_window_cache].
  match goal with |- context [bind _ _ ?w0] => set (w0' := w0) end.
  assert (H0 : caches w0' = (None, None)) by reflexivity.
  rewrite run_bind.
  pose proof (locate_same_caches env w0') as Hl. unfold same_caches in Hl.
  destruct (locate env w0') as [[[win|]|e] w1]; cbn [snd] in Hl.
  - rewrite run_bind. unfold try_except.
    pose proof (connect_window_outcome win w1) as Hc.
    destruct (connect_window env win w1) as [[[[a mw]|]|e] w2]; cbn.
    + exact Hc.
    + congruence.
    + congruence.
  - cbn. congruence.
  - congruence.
Qed.

(** What the locator returns is what the cache holds afterwards, and it
    is a full pair or no pair. *)
Lemma find_outcome w :
  match find_abaqus_window_and_app env w with
  | (Ok (Some a, Some mw), w') => caches w' = (Some a, Some mw)
  | (Ok (None, None), w') => caches w' = (None, None)
  | (Ok _, _) => False
  | (Raise _, w') => caches w' = caches w \/ caches w' = (None, None)
  end.
Proof.
  unfold find_abaqus_window_and_app. rewrite run_bind.
  pose proof (cache_hit_same_caches w) as Hs. unfold same_caches in Hs.
  destruct (cache_hit env w) as [[[|]|e] w0] eqn:Hh; cbn [snd] in Hs.
  - apply cache_hit_true in Hh. destruct Hh as [a [mw Hc]].
    rewrite Hc in Hs. unfold caches in Hs. injection Hs as Ha Hm.
    unfold get_app_cache, get_window_cache. run.
    rewrite Ha, Hm. unfold caches. now rewrite Ha, Hm.
  - pose proof (discover_outcome w0) as Hd.
    destruct (discover env w0) as [[[[a|] [mw|]]|e] w1]; auto.
  - now left.
Qed.

Lemma find_consistent w :
  cache_consistent w -> cache_consistent (snd (find_abaqus_window_and_app env w)).
Proof.
  intros Hw. pose proof (find_outcome w) as H.
  destruct (find_abaqus_window_and_app env w) as [[[[a|] [mw|]]|e] w']; cbn [snd];
    unfold cache_consistent in *; try rewrite H; try exact I; try contradiction.
  destruct H as [H|H]; rewrite H; [exact Hw | exact I].
Qed.

End Locator.

Section Rediscovery.

Variable env : oracle.

Lemma connect_window_grows win : keeps (grows no_control) (connect_window env win).
Proof. unfold connect_window. grows_frame. Qed.

(** Lines 47-72, once the windows are enumerated. *)
Lemma selection_grows windows :
  keeps (grows no_control)
    (found_win_obj <- scan_windows env windows ;;
     match found_win_obj with
     | Some win =>
         r <- try_except (connect_window env win) any_exception (fun _ => ret None) ;;
         match r with
         | Some (a, main_window) => ret (Some a, Some main_window)
         | None => ret (None, None)
         end
     | None => ret (None, None)
     end).
Proof.
  pose proof (scan_windows_grows env windows).
  pose proof (connect_window_grows).
  grows_frame.
Qed.

(** The cold path starts from the cleared cache and enumerates the
    windows before anything else. *)
Lemma discover_enumerates w :
  discover env w = discover env (forget w) /\
  exists evs,
    trace (snd (discover env w)) = trace w ++ GetWindowsWithTitle "Abaqus/CAE" :: evs.
Proof.
  split; [reflexivity|].
  unfold discover, locate, getWindowsWithTitle.
  rewrite run_bind. cbn [set_app_cache]. rewrite run_bind. cbn [set_window_cache].
  rewrite run_bind. rewrite run_bind. unfold ask at 1. cbn [trace].
  destruct (env (trace w) (GetWindowsWithTitle "Abaqus/CAE")) as [windows|e].
  - match goal with
    | |- context [scan_windows env windows ?w0] =>
        pose proof (selection_grows windows w0) as [evs [H _]]
    end.
    unfold bind at 1 in H. exists evs. rewrite H. cbn [log trace].
    now rewrite <- app_assoc.
  - exists []. reflexivity.
Qed.

End Rediscovery.

(** ** Selection of the window *)

Section Selection.

Variable env : oracle.
Variable pid_of : Z -> result Z.
Variable process_of : Z -> result proc.
Variable name_of : proc -> result string.
Hypothesis stable : introspects env pid_of process_of name_of.

Let owner := owner_name pid_of process_of name_of.

(** Lines 51-54 compute [qualifies] of the owner's name, or raise what
    the lookup raises. *)
Lemma owned_by_abaqus_spec win w :
  fst (owned_by_abaqus env win w) =
  match owner (hWnd win) with
  | Ok name => Ok (qualifies name)
  | Raise e => Raise e
  end.
Proof.
  destruct stable as [Hpid [Hproc Hname]].
  unfold owned_by_abaqus, owner, owner_name, qualifies. run.
  rewrite Hpid. destruct (pid_of (hWnd win)) as [pid|e]; cbn; [|reflexivity].
  rewrite Hproc. destruct (process_of pid) as [p|e]; cbn; [|reflexivity].
  rewrite Hname. destruct (name_of p) as [name|e] eqn:Hn; cbn; [|reflexivity].
  destruct (PyStr.contains "abaqus" (PyStr.lower name)); cbn; [|reflexivity].
  rewrite Hname, Hn. cbn.
  destruct (PyStr.contains "cae" (PyStr.lower name)); cbn; [reflexivity|].
  rewrite Hname, Hn. reflexivity.
Qed.

Lemma scan_windows_spec windows w :
  lookups_fail_with_psutil_errors owner windows ->
  fst (scan_windows env windows w) = Ok (find (candidate owner) windows).
Proof.
  revert w. induction windows as [|win rest IH]; intros w Hfail; [reflexivity|].
  assert (Hrest : lookups_fail_with_psutil_errors owner rest).
  { intros x e Hin. apply Hfail. now right. }
  cbn [scan_windows find]. unfold candidate at 1.
  destruct (PyStr.startswith (title win) "Abaqus/CAE"); cbn [andb];
    [|now apply IH].
  rewrite run_bind. unfold try_except.
  pose proof (owned_by_abaqus_spec win w) as Ho.
  destruct (owned_by_abaqus env win w) as [[b|e] w1]; cbn [fst] in Ho.
  - destruct (owner (hWnd win)) as [name|e]; [|discriminate].
    injection Ho as ->. destruct (qualifies name); [reflexivity | now apply IH].
  - destruct (owner (hWnd win)) as [name|e'] eqn:Hw; [discriminate|].
    injection Ho as <-.
    rewrite (Hfail win e (or_introl eq_refl) Hw). cbn. now apply IH.
Qed.

(** A window that is passed over is no candidate. *)
Lemma skipped_is_no_candidate x : skipped owner x = true -> candidate owner x = false.
Proof.
  unfold skipped, candidate.
  destruct (PyStr.startswith (title x) "Abaqus/CAE"); cbn; [|reflexivity].
  destruct (owner (hWnd x)) as [name|e]; [|reflexivity].
  now destruct (qualifies name).
Qed.

(** The loop goes on after a window it passes over. *)
Lemma scan_after_skipped before rest w :
  (forall x, In x before -> skipped owner x = true) ->
  exists w', scan_windows env (before ++ rest) w = scan_windows env rest w'.
Proof.
  revert w. induction before as [|x before IH]; intros w Hskip; [now exists w|].
  assert (Hx : skipped owner x = true) by (apply Hskip; now left).
  assert (Hb : forall y, In y before -> skipped owner y = true)
    by (intros y Hy; apply Hskip; now right).
  rewrite <- app_comm_cons. cbn [scan_windows]. unfold skipped in Hx.
  destruct (PyStr.startswith (title x) "Abaqus/CAE"); cbn [negb orb] in Hx;
    [|now apply IH].
  rewrite run_bind. unfold try_except.
  pose proof (owned_by_abaqus_spec x w) as Ho.
  destruct (owned_by_abaqus env x w) as [[b|e] w1]; cbn [fst] in Ho.
  - destruct (owner (hWnd x)) as [name|e]; [|discriminate].
    injection Ho as ->. destruct (qualifies name); [discriminate|]. now apply IH.
  - destruct (owner (hWnd x)) as [name|e']; [discriminate|].
    injection Ho as <-. rewrite Hx. cbn [ret]. now apply IH.
Qed.

(** The loop stops at a window that passes both checks. *)
Lemma scan_at_candidate win rest w :
  candidate owner win = true -> fst (scan_windows env (win :: rest) w) = Ok (Some win).
Proof.
  unfold candidate. intros Hc. cbn [scan_windows].
  destruct (PyStr.startswith (title win) "Abaqus/CAE"); [|discriminate].
  cbn [andb] in Hc. rewrite run_bind. unfold try_except.
  pose proof (owned_by_abaqus_spec win w) as Ho.
  destruct (owner (hWnd win)) as [name|e]; [|discriminate].
  destruct (owned_by_abaqus env win w) as [[b|e] w1]; cbn [fst] in Ho; [|discriminate].
  injection Ho as ->. now rewrite Hc.
Qed.

(** The loop is left by the exception of a lookup that line 57 does not
    catch. *)
Lemma scan_at_escape win rest w e :
  lookup_escapes owner win e -> fst (scan_windows env (win :: rest) w) = Raise e.
Proof.
  intros [Ht [Ho He]]. cbn [scan_windows]. rewrite Ht.
  rewrite run_bind. unfold try_except.
  pose proof (owned_by_abaqus_spec win w) as Hs. rewrite Ho in Hs.
  destruct (owned_by_abaqus env win w) as [[b|e'] w1]; cbn [fst] in Hs; [discriminate|].
  injection Hs as ->. now rewrite He.
Qed.

(** Every list of windows has a first window at which the loop stops, or
    is passed over entirely. *)
Lemma first_stop_or_all_skipped windows :
  (exists before win after,
     windows = before ++ win :: after /\
     (forall x, In x before -> skipped owner x = true) /\
     (candidate owner win = true \/ exists e, lookup_escapes owner win e)) \/
  (forall x, In x windows -> skipped owner x = true).
Proof.
  induction windows as [|x rest IH]; [right; intros ? []|].
  destruct (skipped owner x) eqn:Hx.
  - destruct IH as [[before [win [after [-> [Hb Hw]]]]]|Hall].
    + left. exists (x :: before), win, after. repeat split; [|exact Hw].
      intros y [<-|Hy]; [exact Hx | now apply Hb].
    + right. intros y [<-|Hy]; [exact Hx | now apply Hall].
  - left. exists [], x, rest. repeat split; [intros ? []|].
    unfold skipped in Hx. unfold candidate, lookup_escapes.
    destruct (PyStr.startswith (title x) "Abaqus/CAE"); cbn [negb orb andb] in *;
      [|discriminate].
    destruct (owner (hWnd x)) as [name|e].
    + left. now destruct (qualifies name).
    + right. exists e. now repeat split.
Qed.


End Selection.


(** The handle of the first window is no longer valid and the lookup
    raises an exception that is none of psutil's: the locator is left by
    it after the one lookup, and the second window, which passes both
    checks, is not examined. *)
Lemma lookup_failure_outside_psutil_ends_discovery :
  candidate (owner_name (fun hwnd => handle_is_stale [] (GetWindowThreadProcessId hwnd))
                        (fun pid => handle_is_stale [] (Process pid))
                        (fun p => handle_is_stale [] (ProcName p)))
            (mkWin "Abaqus/CAE 2023 - Model Database" 30) = true /\
  find_abaqus_window_and_app handle_is_stale initial_world
  = (Raise invalid_handle,
     extend [GetWindowsWithTitle "Abaqus/CAE"; GetWindowThreadProcessId 20] initial_world).
Proof. split; reflexivity. Qed.

(** ** Failed discovery *)

Section FailedDiscovery.

Variable env : oracle.

(** A failing connection attempt returns no pair or raises, and leaves
    the cache as it was. *)
Lemma failed_connection win w :
  connection_fails env win (trace w) ->
  exists w',
    try_except (connect_window env win) any_exception (fun _ => ret None) w = (Ok None, w')
    /\ caches w' = caches w.
Proof.
  intros Hf. unfold try_except, connect_window. run.
  assert (E2 : forall (h : list call) c1 c2, (h ++ [c1]) ++ [c2] = h ++ [c1; c2])
    by (intros; now rewrite <- app_assoc).
  assert (E3 : forall (h : list call) c1 c2 c3,
             ((h ++ [c1]) ++ [c2]) ++ [c3] = h ++ [c1; c2; c3])
    by (intros; now rewrite <- !app_assoc).
  destruct Hf as [e Hc | a e Hc Hw | a mw e Hc Hw He | a mw Hc Hw He
                 | a mw e Hc Hw He Hv | a mw Hc Hw He Hv];
    rewrite Hc; cbn; try (eexists; split; reflexivity);
    rewrite Hw; cbn; try (eexists; split; reflexivity);
    rewrite E2, He; cbn; try (eexists; split; reflexivity);
    rewrite E3, Hv; cbn; eexists; split; reflexivity.
Qed.

(** The cold path after a selection that retains no window, or retains one
    to which the connection attempt fails. *)
Lemma cold_path_without_session w w0 found w1 :
  cache_hit env w = (Ok false, w0) ->
  locate env (forget w0) = (Ok found, w1) ->
  match found with
  | None => True
  | Some win => connection_fails env win (trace w1)
  end ->
  exists w',
    find_abaqus_window_and_app env w = (Ok (None, None), w') /\
    abaqus_app_instance_cache w' = None /\
    abaqus_main_window_cache w' = None.
Proof.
  intros Hhit Hloc Hfail.
  unfold find_abaqus_window_and_app. rewrite (run_bind_ok _ _ _ _ _ Hhit).
  unfold discover. rewrite run_bind. cbn [set_app_cache]. rewrite run_bind.
  cbn [set_window_cache]. change (mkWorld None None _ _ _) with (forget w0).
  rewrite (run_bind_ok _ _ _ _ _ Hloc).
  pose proof (locate_same_caches env (forget w0)) as Hs.
  rewrite Hloc in Hs. unfold same_caches in Hs. cbn in Hs.
  destruct found as [win|].
  - destruct (failed_connection win w1 Hfail) as [w' [Hrun Hc]].
    rewrite (run_bind_ok _ _ _ _ _ Hrun). exists w'.
    rewrite Hs in Hc. unfold caches in Hc. injection Hc as Ha Hm. now repeat split.
  - exists w1. unfold caches in Hs. injection Hs as Ha Hm. now repeat split.
Qed.

Lemma find_all_false {A} (f : A -> bool) (l : list A) :
  (forall x, In x l -> f x = false) -> find f l = None.
Proof.
  induction l as [|x rest IH]; intros Hall; [reflexivity|].
  cbn [find]. rewrite (Hall x (or_introl eq_refl)). apply IH.
  intros y Hy. apply Hall. now right.
Qed.


End FailedDiscovery.


(** ** The cached session *)

Section CachedSession.

Variable env : oracle.

(** The check of lines 39-40 makes the calls of [cache_check] and ends
    as it says. *)
Lemma cache_hit_runs w a mw evs r :
  abaqus_app_instance_cache w = Some a ->
  abaqus_main_window_cache w = Some mw ->
  cache_check env mw (trace w) evs r ->
  cache_hit env w = (r, extend evs w).
Proof.
  intros Ha Hm Hc. unfold cache_hit, get_app_cache, get_window_cache. run.
  rewrite Ha, Hm. cbn.
  destruct Hc as [He | e He | b He Hv | e He Hv]; rewrite He; cbn;
    try reflexivity; rewrite Hv; unfold log, extend; cbn; now rewrite <- app_assoc.
Qed.

(** A connection attempt whose four calls succeed stores the pair and
    returns it. *)
Lemma successful_connection win w a mw :
  connects env win (trace w) a mw ->
  connect_window env win w
  = (Ok (Some (a, mw)),
     remember a mw
       (extend [Connect (hWnd win) 20; AppWindow a (hWnd win); Exists mw None; IsVisible mw]
               w)).
Proof.
  intros [Hc [Hw [He Hv]]]. unfold connect_window. run.
  assert (E2 : forall (h : list call) c1 c2, (h ++ [c1]) ++ [c2] = h ++ [c1; c2])
    by (intros; now rewrite <- app_assoc).
  assert (E3 : forall (h : list call) c1 c2 c3,
             ((h ++ [c1]) ++ [c2]) ++ [c3] = h ++ [c1; c2; c3])
    by (intros; now rewrite <- !app_assoc).
  rewrite Hc. cbn. rewrite Hw. cbn. rewrite E2, He. cbn. rewrite E3, Hv. cbn.
  unfold remember, extend. cbn. now rewrite <- !app_assoc.
Qed.

(** The cold path once enumeration and selection have retained a window
    to which the connection attempt succeeds. *)
Lemma cold_path_with_session w w0 win w1 a mw :
  cache_hit env w = (Ok false, w0) ->
  locate env (forget w0) = (Ok (Some win), w1) ->
  connects env win (trace w1) a mw ->
  find_abaqus_window_and_app env w
  = (Ok (Some a, Some mw),
     remember a mw
       (extend [Connect (hWnd win) 20; AppWindow a (hWnd win); Exists mw None; IsVisible mw]
               w1)).
Proof.
  intros Hhit Hloc Hcon.
  unfold find_abaqus_window_and_app. rewrite (run_bind_ok _ _ _ _ _ Hhit).
  unfold discover. rewrite run_bind. cbn [set_app_cache]. rewrite run_bind.
  cbn [set_window_cache]. change (mkWorld None None _ _ _) with (forget w0).
  rewrite (run_bind_ok _ _ _ _ _ Hloc).
  rewrite run_bind. unfold try_except.
  now rewrite (successful_connection win w1 a mw Hcon).
Qed.

(** The cold path when enumeration or selection raises. *)
Lemma cold_path_raises w w0 e w1 :
  cache_hit env w = (Ok false, w0) ->
  locate env (forget w0) = (Raise e, w1) ->
  find_abaqus_window_and_app env w = (Raise e, w1).
Proof.
  intros Hhit Hloc.
  unfold find_abaqus_window_and_app. rewrite (run_bind_ok _ _ _ _ _ Hhit).
  unfold discover. rewrite run_bind. cbn [set_app_cache]. rewrite run_bind.
  cbn [set_window_cache]. change (mkWorld None None _ _ _) with (forget w0).
  now rewrite (run_bind_raise _ _ _ _ _ Hloc).
Qed.


End CachedSession.


(** The cached window 2 is gone and its existence check raises, while an
    Abaqus/CAE is open: the exception leaves the locator after the one
    call, the pair (1, 2) stays in the cache and no window is
    enumerated. *)
Lemma raising_check_keeps_the_stale_pair :
  find_abaqus_window_and_app cached_window_is_gone with_session
  = (Raise element_is_gone, extend [Exists 2 None] with_session) /\
  caches (snd (find_abaqus_window_and_app cached_window_is_gone with_session))
  = (Some 1, Some 2).
Proof. split; reflexivity. Qed.

(** ** What the operations return *)

Lemma returns_ret {A} (Q : A -> Prop) (a : A) : Q a -> returns Q (ret a).
Proof. intros H w b [= <-]. exact H. Qed.

Lemma returns_raise {A} (Q : A -> Prop) (e : exn) : returns Q (raise e).
Proof. intros w b. discriminate. Qed.

Lemma returns_bind {A B} (Q : B -> Prop) (m : M A) (k : A -> M B) :
  (forall a, returns Q (k a)) -> returns Q (bind m k).
Proof.
  intros Hk w b. unfold bind. destruct (m w) as [[a|e] w1]; [apply Hk | discriminate].
Qed.

Lemma returns_bind_with {A B} (P : A -> Prop) (Q : B -> Prop) (m : M A) (k : A -> M B) :
  returns P m -> (forall a, P a -> returns Q (k a)) -> returns Q (bind m k).
Proof.
  intros Hm Hk w b. unfold bind. specialize (Hm w).
  destruct (m w) as [[a|e] w1]; [|discriminate].
  apply Hk. now apply Hm.
Qed.

Lemma returns_try_except {A} (Q : A -> Prop) (body : M A) handles (handler : exn -> M A) :
  returns Q body -> (forall e, returns Q (handler e)) ->
  returns Q (try_except body handles handler).
Proof.
  intros Hb Hh w a. unfold try_except. specialize (Hb w).
  destruct (body w) as [[b|e] w1]; cbn in *; [apply Hb|].
  destruct (handles e); [apply Hh | discriminate].
Qed.

Ltac returns_step :=
  first
    [ assumption
    | apply returns_raise
    | apply returns_bind; intro
    | apply returns_try_except; [| intro]
    | match goal with
      | |- returns _ (if ?b then _ else _) => destruct b
      | |- returns _ (match ?x with _ => _ end) => destruct x
      end ].

Lemma prefix_app (p s : string) : String.prefix p (p ++ s) = true.
Proof.
  induction p as [|a p IH]; cbn; [now destruct s|].
  destruct (ascii_dec a a); [exact IH | congruence].
Qed.

Section Reports.

Variable env : oracle.

Lemma fill_dialog_returns a mw for_dialog path :
  returns dialog_report (fill_dialog env a mw for_dialog path).
Proof.
  unfold fill_dialog.
  apply (returns_bind_with
           (fun found => match found with
                         | inl _ => True
                         | inr s => dialog_report s
                         end)).
  - repeat returns_step; apply returns_ret; [exact I | constructor].
  - intros [d|s] Hs; [|now apply returns_ret].
    unfold interact, interact_failed.
    repeat returns_step; apply returns_ret; constructor.
Qed.

Lemma submit_returns code a mw : returns dialog_report (submit env code a mw).
Proof.
  unfold submit. apply returns_bind. intro. apply fill_dialog_returns.
Qed.

Lemma scrape_returns mw : returns scrape_report (scrape env mw).
Proof.
  unfold scrape, extract.
  repeat returns_step; apply returns_ret; constructor.
Qed.

(** The [finally] clause never raises. *)
Lemma remove_script_file_total : total (remove_script_file env).
Proof.
  intros w. unfold remove_script_file, get_script_file_path, os_path_exists,
    try_except, os_remove. run.
  destruct (script_file_path w) as [path|]; cbn; [|now exists tt].
  destruct (if PyStr.truthy path then _ else _) as [r w1] eqn:Hp.
  assert (exists b, r = Ok b) as [b ->].
  { destruct (PyStr.truthy path); injection Hp as <- _; eauto. }
  destruct b; cbn; [|now exists tt].
  destruct (env (trace w1) (OsRemove path)); cbn; now exists tt.
Qed.

End Reports.

Section SubmissionFrames.

Variable env : oracle.

Lemma is_run_script_dialog_same_caches d : keeps same_caches (is_run_script_dialog env d).
Proof. unfold is_run_script_dialog. caches_frame. Qed.

Lemma is_run_script_dialog_quiet d : keeps (grows no_control) (is_run_script_dialog env d).
Proof. unfold is_run_script_dialog. grows_frame. Qed.

Lemma search_children_same_caches ds d : keeps same_caches (search_children env ds d).
Proof.
  induction ds as [|x rest IH]; cbn [search_children].
  - caches_frame.
  - pose proof (is_run_script_dialog_same_caches x). caches_frame.
Qed.

Lemma search_children_quiet ds d : keeps (grows no_control) (search_children env ds d).
Proof.
  induction ds as [|x rest IH]; cbn [search_children].
  - grows_frame.
  - pose proof (is_run_script_dialog_quiet x). grows_frame.
Qed.

Lemma identify_dialog_same_caches a mw : keeps same_caches (identify_dialog env a mw).
Proof.
  pose proof is_run_script_dialog_same_caches. pose proof search_children_same_caches.
  unfold identify_dialog. caches_frame.
Qed.

(** Identifying the dialog touches no control. *)
Lemma identify_dialog_quiet a mw : keeps (grows no_control) (identify_dialog env a mw).
Proof.
  pose proof is_run_script_dialog_quiet. pose proof search_children_quiet.
  unfold identify_dialog. grows_frame.
Qed.

Lemma open_run_script_same_caches code mw : keeps same_caches (open_run_script env code mw).
Proof. unfold open_run_script, write_script_file. caches_frame. Qed.

Lemma open_run_script_quiet code mw : keeps (grows no_control) (open_run_script env code mw).
Proof. unfold open_run_script, write_script_file. grows_frame. Qed.

Lemma fill_dialog_same_caches a mw for_dialog path :
  keeps same_caches (fill_dialog env a mw for_dialog path).
Proof.
  pose proof identify_dialog_same_caches.
  unfold fill_dialog, interact, interact_failed, resolve_edit, resolve_button.
  caches_frame.
Qed.

Lemma submit_same_caches code a mw : keeps same_caches (submit env code a mw).
Proof.
  pose proof open_run_script_same_caches. pose proof fill_dialog_same_caches.
  unfold submit. caches_frame.
Qed.

Lemma remove_script_file_same_caches : keeps same_caches (remove_script_file env).
Proof. unfold remove_script_file. caches_frame. Qed.

Lemma remove_script_file_quiet : keeps (grows no_control) (remove_script_file env).
Proof. unfold remove_script_file. grows_frame. Qed.

Lemma pane_heuristic_same_caches panes : keeps same_caches (pane_heuristic env panes).
Proof.
  induction panes as [|x rest IH]; cbn [pane_heuristic]; unfold pane_qualifies;
    caches_frame.
Qed.

Lemma edit_heuristic_same_caches edits : keeps same_caches (edit_heuristic env edits).
Proof.
  induction edits as [|x rest IH]; cbn [edit_heuristic]; unfold edit_qualifies;
    caches_frame.
Qed.

Lemma scrape_same_caches mw : keeps same_caches (scrape env mw).
Proof.
  pose proof pane_heuristic_same_caches. pose proof edit_heuristic_same_caches.
  unfold scrape, extract. caches_frame.
Qed.

End SubmissionFrames.

(** ** Outcomes of the two tools *)

Section Outcomes.

Variable env : oracle.

(** After a successful acquisition the cache holds the session that is
    returned; otherwise the cache is as the locator left it. *)
Lemma acquire_outcome w :
  match acquire env w with
  | (Ok (Some (a_o, mw)), w0) => exists a, a_o = Some a /\ caches w0 = (Some a, Some mw)
  | (Ok None, w0) | (Raise _, w0) =>
      caches w0 = caches (snd (find_abaqus_window_and_app env w))
  end.
Proof.
  unfold acquire. rewrite run_bind. pose proof (find_outcome env w) as Hf.
  destruct (find_abaqus_window_and_app env w) as [[[[a|] [mw|]]|e] w1];
    cbn [snd fst]; try contradiction; try reflexivity.
  run. next_answer; [|reflexivity].
  next_branch; [|reflexivity].
  exists a. split; [reflexivity | exact Hf].
Qed.

Lemma acquire_consistent w :
  cache_consistent w -> cache_consistent (snd (acquire env w)).
Proof.
  intros Hw. pose proof (acquire_outcome w) as H.
  pose proof (find_consistent env w Hw) as Hf.
  destruct (acquire env w) as [[[[a_o mw]|]|e] w0]; cbn [snd].
  - destruct H as [a [-> H]]. unfold cache_consistent. now rewrite H.
  - unfold cache_consistent in *. now rewrite H.
  - unfold cache_consistent in *. now rewrite H.
Qed.

Lemma execute_script_outcome code w :
  match acquire env w with
  | (Raise e, w0) => execute_script env code w = (Raise e, w0)
  | (Ok None, w0) =>
      execute_script env code w = (Ok window_missing_for_script, forget w0)
  | (Ok (Some _), w0) =>
      exists s w',
        execute_script env code w = (Ok s, w') /\
        ((caught_report s /\ caches w' = (None, None)) \/
         (dialog_report s /\ caches w' = caches w0))
  end.
Proof.
  unfold execute_script. rewrite run_bind.
  destruct (acquire env w) as [[[[a_o mw]|]|e] w0]; [|reflexivity|reflexivity].
  rewrite run_bind. cbn [set_script_file_path].
  match goal with |- context [try_finally _ _ ?x] => set (w1 := x) end.
  assert (H1 : caches w1 = caches w0) by reflexivity.
  unfold try_finally, try_except.
  pose proof (submit_same_caches env code a_o mw w1) as Hs.
  pose proof (submit_returns env code a_o mw w1) as Hr.
  destruct (submit env code a_o mw w1) as [[s|e] w2]; cbn [snd fst] in *.
  - pose proof (remove_script_file_same_caches env w2) as Hc.
    destruct (remove_script_file_total env w2) as [u Hu].
    destruct (remove_script_file env w2) as [r w3]. cbn [fst snd] in *. subst r.
    exists s, w3. split; [reflexivity|]. right. split; [now apply Hr|].
    unfold same_caches in *. congruence.
  - cbn [any_exception]. unfold submit_failed.
    rewrite run_bind. cbn [set_app_cache]. rewrite run_bind. cbn [set_window_cache].
    match goal with |- context [(if timeout_error e then _ else _) ?x] => set (w3 := x) end.
    assert (H3 : caches w3 = (None, None)) by reflexivity.
    pose proof (remove_script_file_same_caches env w3) as Hc.
    destruct (remove_script_file_total env w3) as [u Hu].
    destruct (timeout_error e); cbn [ret];
      destruct (remove_script_file env w3) as [r w4]; cbn [fst snd] in *; subst r;
      eexists _, w4; (split; [reflexivity|]); left;
      (split; [constructor | unfold same_caches in *; congruence]).
Qed.

Lemma get_abaqus_message_log_outcome w :
  match acquire env w with
  | (Raise e, w0) => get_abaqus_message_log env w = (Raise e, w0)
  | (Ok None, w0) =>
      get_abaqus_message_log env w = (Ok window_missing_for_log, forget w0)
  | (Ok (Some _), w0) =>
      exists s w',
        get_abaqus_message_log env w = (Ok s, w') /\
        ((caught_report s /\ caches w' = (None, None)) \/
         (scrape_report s /\ caches w' = caches w0))
  end.
Proof.
  unfold get_abaqus_message_log. rewrite run_bind.
  destruct (acquire env w) as [[[[a_o mw]|]|e] w0]; [|reflexivity|reflexivity].
  unfold try_except.
  pose proof (scrape_same_caches env mw w0) as Hs.
  pose proof (scrape_returns env mw w0) as Hr.
  destruct (scrape env mw w0) as [[s|e] w1]; cbn [snd fst] in *.
  - exists s, w1. split; [reflexivity|]. right. split; [now apply Hr | exact Hs].
  - cbn [any_exception]. unfold scrape_failed.
    eexists _, _. split; [reflexivity|]. left. split; [constructor | reflexivity].
Qed.

End Outcomes.

(** ** Exceptions at the boundary of the tools *)

(** C1, as stated, fails: when window enumeration raises, with an empty
    cache, the exception leaves both tools; neither returns a string. *)
Lemma enumeration_failure_propagates :
  fst (execute_script enumeration_fails "print('hello')" initial_world)
  = Raise (mkExn OtherException "window enumeration failed") /\
  fst (get_abaqus_message_log enumeration_fails initial_world)
  = Raise (mkExn OtherException "window enumeration failed").
Proof. split; reflexivity. Qed.

(** C1, amended: the acquisition of the session (the locator call and the
    existence check of lines 101-103 and 248-250) runs outside the [try] of
    either tool.  When it completes, the tool returns a string, whatever the
    collaborators do afterwards; when it raises, the tool raises the same
    exception. *)
Theorem exceptions_after_acquisition_become_strings (env : oracle) (code : string) (w : world) :
  match fst (acquire env w) with
  | Ok _ =>
      (exists s, fst (execute_script env code w) = Ok s) /\
      (exists s, fst (get_abaqus_message_log env w) = Ok s)
  | Raise e =>
      fst (execute_script env code w) = Raise e /\
      fst (get_abaqus_message_log env w) = Raise e
  end.
Proof.
  pose proof (execute_script_outcome env code w) as He.
  pose proof (get_abaqus_message_log_outcome env w) as Hl.
  destruct (acquire env w) as [[[s|]|e] w0]; cbn [fst].
  - destruct He as [s1 [w1 [-> _]]]. destruct Hl as [s2 [w2 [-> _]]].
    split; eexists; reflexivity.
  - rewrite He, Hl. split; eexists; reflexivity.
  - now rewrite He, Hl.
Qed.

(** ** Invalidation of the cache *)

(** C4, as stated, fails: with the session (1, 2) cached and valid, when no
    Run Script dialog shows, [execute_script] ends with the dialog-not-found
    report and the cache still holds the pair. *)
Lemma dialog_not_found_keeps_the_cache :
  exists s w',
    execute_script dialog_never_shows "print('hello')" with_session = (Ok s, w') /\
    reports_dialog_not_found s = true /\
    caches w' = (Some 1, Some 2) /\
    caches w' <> (None, None).
Proof.
  eexists _, _. split; [reflexivity|]. repeat split. discriminate.
Qed.

Lemma dialog_report_not_caught s :
  dialog_report s -> reports_missing_window s || reports_caught_exception s = false.
Proof. intros []; reflexivity. Qed.

Lemma scrape_report_not_caught s :
  scrape_report s -> reports_missing_window s || reports_caught_exception s = false.
Proof. intros []; reflexivity. Qed.

Lemma caught_report_not_dialog s :
  caught_report s -> reports_dialog_not_found s || reports_control_failure s = false.
Proof. intros []; reflexivity. Qed.

(** C4, amended: when a tool returns the window-not-found report or the
    report of an exception caught by its outer handlers (a timeout or any
    other exception), both cache variables are None afterwards, so the next
    call rediscovers; when [execute_script] returns the dialog-not-found
    report or the control-interaction report, the cache still holds the
    session the call worked with. *)
Theorem caught_errors_clear_the_cache (env : oracle) (code : string) (w : world) :
  (forall s w',
     execute_script env code w = (Ok s, w') ->
     (reports_missing_window s || reports_caught_exception s = true ->
      caches w' = (None, None)) /\
     (reports_dialog_not_found s || reports_control_failure s = true ->
      exists a mw, caches w' = (Some a, Some mw))) /\
  (forall s w',
     get_abaqus_message_log env w = (Ok s, w') ->
     reports_missing_window s || reports_caught_exception s = true ->
     caches w' = (None, None)).
Proof.
  pose proof (execute_script_outcome env code w) as He.
  pose proof (get_abaqus_message_log_outcome env w) as Hl.
  pose proof (acquire_outcome env w) as Ha.
  destruct (acquire env w) as [[[[a_o mw]|]|e] w0].
  - destruct Ha as [a [-> Ha]].
    destruct He as [s1 [w1 [He H1]]]. destruct Hl as [s2 [w2 [Hl H2]]].
    split; intros s w'.
    + rewrite He. intros [= <- <-].
      destruct H1 as [[Hr Hc]|[Hr Hc]]; split; intros Hs.
      * exact Hc.
      * rewrite (caught_report_not_dialog _ Hr) in Hs. discriminate.
      * rewrite (dialog_report_not_caught _ Hr) in Hs. discriminate.
      * exists a, mw. congruence.
    + rewrite Hl. intros [= <- <-] Hs.
      destruct H2 as [[Hr Hc]|[Hr Hc]]; [exact Hc|].
      rewrite (scrape_report_not_caught _ Hr) in Hs. discriminate.
  - split; intros s w'.
    + rewrite He. intros [= <- <-]. split; [reflexivity | discriminate].
    + rewrite Hl. intros [= <- <-]. reflexivity.
  - split; intros s w'; [rewrite He | rewrite Hl]; discriminate.
Qed.

(** On the idle desktop no window is found: the report is the
    window-not-found one and the cache is cleared. *)
Lemma caught_errors_clear_the_cache_witness :
  caches (snd (execute_script (fun _ => idle) "print('hello')" with_session)) = (None, None).
Proof.
  refine (proj1 (proj1 (caught_errors_clear_the_cache
                          (fun _ => idle) "print('hello')" with_session) _ _ eq_refl) _).
  reflexivity.
Defined.

(** ** The two cache variables go together *)

(** C10: in every world the process can be in between operations, the two
    cache variables are both None or both set. *)
Theorem cache_variables_go_together (env : oracle) (w : world) :
  reachable env w -> cache_consistent w.
Proof.
  induction 1 as [|w Hr IH|w code Hr IH|w Hr IH].
  - exact I.
  - now apply find_consistent.
  - pose proof (execute_script_outcome env code w) as He.
    pose proof (acquire_consistent env w IH) as Ha.
    destruct (acquire env w) as [[[s|]|e] w0]; cbn [snd] in Ha.
    + destruct He as [s1 [w1 [-> [[_ Hc]|[_ Hc]]]]]; cbn [snd];
        unfold cache_consistent in *; now rewrite Hc.
    + rewrite He. exact I.
    + now rewrite He.
  - pose proof (get_abaqus_message_log_outcome env w) as He.
    pose proof (acquire_consistent env w IH) as Ha.
    destruct (acquire env w) as [[[s|]|e] w0]; cbn [snd] in Ha.
    + destruct He as [s1 [w1 [-> [[_ Hc]|[_ Hc]]]]]; cbn [snd];
        unfold cache_consistent in *; now rewrite Hc.
    + rewrite He. exact I.
    + now rewrite He.
Qed.

(** After a discovery, a submission that finds no dialog and a log request
    whose acquisition raises, the two variables still go together. *)
Lemma cache_variables_go_together_witness :
  cache_consistent
    (snd (get_abaqus_message_log desktop
            (snd (execute_script desktop "print('hello')"
                    (snd (find_abaqus_window_and_app desktop initial_world)))))).
Proof.
  apply (cache_variables_go_together desktop).
  apply reach_log, reach_execute, reach_find, reach_initial.
Defined.

(** ** Identification of the Run Script dialog *)

Ltac probing_step :=
  first
    [ match goal with
      | |- keeps (grows probing) (ask ?e ?c) => exact (ask_grows e probing c eq_refl)
      end
    | frame_step (grows_refl probing) (grows_trans probing) ].

Ltac probing_frame := repeat (unfold_calls; probing_step).

Ltac tidy_trace :=
  cbn [ret raise fst snd negb app]; rewrite ?app_nil_r, <- ?app_assoc; reflexivity.

Lemma extend_extend p q w : extend q (extend p w) = extend (p ++ q) w.
Proof. unfold extend. cbn. now rewrite app_assoc. Qed.

Lemma accepts_window v r d :
  window_tier v r = Accepts d -> accepted v d = Ok true.
Proof.
  unfold window_tier. destruct r as [d0|e]; [|discriminate].
  destruct (accepted v d0) as [[|]|e] eqn:Ha; try discriminate. now intros [= <-].
Qed.

Lemma accepts_child v ds d :
  children_tier v ds = Accepts d -> accepted v d = Ok true.
Proof.
  induction ds as [|d0 rest IH]; cbn [children_tier]; [discriminate|].
  destruct (accepted v d0) as [[|]|e] eqn:Ha; try discriminate; [|exact IH].
  now intros [= <-].
Qed.

Lemma accepted_true v d :
  accepted v d = Ok true ->
  exists_of v d = Ok true /\
  exists t, text_of v d = Ok t /\
            (PyStr.contains "Run Script" t = true \/ PyStr.contains "Select file" t = true).
Proof.
  unfold accepted, title_accepted.
  destruct (exists_of v d) as [[|]|e]; try discriminate.
  destruct (text_of v d) as [t|e]; [|discriminate].
  intros [= H]. split; [reflexivity|]. exists t. split; [reflexivity|].
  now apply orb_true_iff.
Qed.

Section DialogTiers.

Variable env : oracle.

(** The test of lines 128-129 returns true only after the window has
    answered that it exists and has given a title with one of the two
    substrings. *)
Lemma is_run_script_dialog_true d w w' :
  is_run_script_dialog env d w = (Ok true, w') -> answered_as_dialog env d.
Proof.
  unfold is_run_script_dialog, answered_as_dialog, title_accepted. run.
  destruct (env (trace w) (Exists d None)) as [[|]|e] eqn:He; cbn; try discriminate.
  destruct (env (trace w ++ [Exists d None]) (WindowText d)) as [t1|e] eqn:H1; cbn;
    [|discriminate].
  destruct (PyStr.contains "Run Script" t1) eqn:C1; cbn.
  - intros _. split; [now exists (trace w)|].
    exists (trace w ++ [Exists d None]), t1. now rewrite C1.
  - destruct (env ((trace w ++ [Exists d None]) ++ [WindowText d]) (WindowText d))
      as [t2|e] eqn:H2; cbn; [|discriminate].
    intros [= C2 _]. split; [now exists (trace w)|].
    exists ((trace w ++ [Exists d None]) ++ [WindowText d]), t2.
    rewrite C2. split; [exact H2 | apply orb_true_r].
Qed.

Lemma search_children_true ds d0 w d w' :
  search_children env ds d0 w = (Ok (d, true), w') -> answered_as_dialog env d.
Proof.
  revert w. induction ds as [|x rest IH]; intros w; cbn [search_children].
  - unfold ret. discriminate.
  - rewrite run_bind.
    destruct (is_run_script_dialog env x w) as [[[|]|e] w1] eqn:Hx; [| |discriminate].
    + unfold ret. intros [= <- _]. exact (is_run_script_dialog_true x w w1 Hx).
    + apply IH.
Qed.

(** The dialog that lines 125-150 return has answered as a dialog. *)
Lemma identify_dialog_answered a mw w d w' :
  identify_dialog env a mw w = (Ok d, w') -> answered_as_dialog env d.
Proof.
  unfold identify_dialog. rewrite run_bind.
  destruct (top_window env a w) as [[d1|e] w1]; [|discriminate].
  rewrite run_bind.
  destruct (is_run_script_dialog env d1 w1) as [[[|]|e] w2] eqn:H1; [| |discriminate].
  - cbn. intros [= <- _]. exact (is_run_script_dialog_true d1 w1 w2 H1).
  - cbn [negb]. rewrite run_bind. rewrite run_bind.
    destruct (active env a w2) as [[d2|e] w3]; [|discriminate].
    rewrite run_bind.
    destruct (is_run_script_dialog env d2 w3) as [[[|]|e] w4] eqn:H2; [| |discriminate].
    + cbn. intros [= <- _]. exact (is_run_script_dialog_true d2 w3 w4 H2).
    + cbn [ret snd fst negb]. rewrite run_bind. rewrite run_bind.
      destruct (children env mw w4) as [[ds|e] w5]; [|discriminate].
      destruct (search_children env ds d2 w5) as [[[d3 [|]]|e] w6] eqn:H3;
        cbn; try discriminate.
      intros [= <- _]. exact (search_children_true ds d2 w5 d3 w6 H3).
Qed.

Section StableDialog.

Variable v : dialog_view.
Hypothesis stable : shows env v.

(** The test of lines 128-129 on a window that answers by the tables: its
    result, and the calls it makes. *)
Lemma is_run_script_dialog_runs d w :
  exists p,
    Forall probing p /\ is_run_script_dialog env d w = (accepted v d, extend p w).
Proof.
  destruct stable as (_ & _ & _ & Hex & Htxt).
  assert (P1 : probing (Exists d None)) by reflexivity.
  assert (P2 : probing (WindowText d)) by reflexivity.
  unfold is_run_script_dialog, accepted, title_accepted. run.
  rewrite Hex. destruct (exists_of v d) as [[|]|e]; cbn.
  - rewrite Htxt. destruct (text_of v d) as [t|e] eqn:Ht; cbn.
    + destruct (PyStr.contains "Run Script" t); cbn.
      * exists [Exists d None; WindowText d]. split; [now repeat constructor|].
        unfold log, extend. cbn. now rewrite <- app_assoc.
      * rewrite Htxt, Ht. cbn.
        exists [Exists d None; WindowText d; WindowText d]. split; [now repeat constructor|].
        unfold log, extend. cbn. now rewrite <- !app_assoc.
    + exists [Exists d None; WindowText d]. split; [now repeat constructor|].
      unfold log, extend. cbn. now rewrite <- app_assoc.
  - exists [Exists d None]. split; [now repeat constructor | reflexivity].
  - exists [Exists d None]. split; [now repeat constructor | reflexivity].
Qed.

(** The loop of lines 143-147 over windows that answer by the tables. *)
Lemma search_children_runs ds d0 w :
  exists p,
    Forall probing p /\
    search_children env ds d0 w
    = (match children_tier v ds with
       | Accepts d => Ok (d, true)
       | Declines => Ok (d0, false)
       | Fails e => Raise e
       end, extend p w).
Proof.
  revert w. induction ds as [|d rest IH]; intros w; cbn [search_children children_tier].
  - exists []. split; [constructor|]. unfold ret, extend. now rewrite app_nil_r; destruct w.
  - destruct (is_run_script_dialog_runs d w) as [p [Hp Hd]].
    rewrite run_bind, Hd. destruct (accepted v d) as [[|]|e].
    + exists p. now split.
    + destruct (IH (extend p w)) as [q [Hq Hs]]. exists (p ++ q). split.
      * apply Forall_app. now split.
      * now rewrite Hs, extend_extend.
    + exists p. now split.
Qed.

(** Lines 125-150 on windows that answer by the tables: the outcome is
    that of the first tier that accepts or fails, and the calls made are
    those of the tiers up to it. *)
Lemma identify_dialog_runs a mw w :
  exists p1 p2 p3,
    Forall probing p1 /\ Forall probing p2 /\ Forall probing p3 /\
    identify_dialog env (Some a) mw w
    = (first_outcome [window_tier v (top_of v a);
                      window_tier v (active_of v a);
                      child_windows_tier v mw],
       extend (TopWindow a :: p1 ++
                 match window_tier v (top_of v a) with
                 | Declines =>
                     Active a :: p2 ++
                       match window_tier v (active_of v a) with
                       | Declines => Children mw :: p3
                       | _ => []
                       end
                 | _ => []
                 end) w).
Proof.
  destruct stable as (Htop & Hact & Hch & _ & _).
  assert (E1 : forall c w0, log c w0 = extend [c] w0) by reflexivity.
  unfold identify_dialog, top_window, active, children, child_windows_tier.
  cbn [first_outcome].
  rewrite run_bind. unfold ask at 1. rewrite Htop, E1.
  destruct (top_of v a) as [d1|e]; cbn [window_tier].
  2:{ exists [], [], []. now repeat split. }
  destruct (is_run_script_dialog_runs d1 (extend [TopWindow a] w)) as [p1 [P1 H1]].
  rewrite run_bind, H1, extend_extend.
  destruct (accepted v d1) as [[|]|e].
  - exists p1, [], []. repeat split; try apply Forall_nil; try assumption; tidy_trace.
  - cbn [negb]. rewrite run_bind. rewrite run_bind. unfold ask at 1.
    rewrite Hact, E1, extend_extend.
    destruct (active_of v a) as [d2|e]; cbn [window_tier].
    2:{ exists p1, [], []. repeat split; try apply Forall_nil; try assumption; tidy_trace. }
    rewrite run_bind.
    match goal with
    | |- context [is_run_script_dialog env d2 ?w0] =>
        destruct (is_run_script_dialog_runs d2 w0) as [p2 [P2 H2]]
    end.
    rewrite H2, extend_extend.
    destruct (accepted v d2) as [[|]|e].
    + exists p1, p2, []. repeat split; try apply Forall_nil; try assumption; tidy_trace.
    + cbn [ret snd fst negb]. rewrite run_bind. rewrite run_bind. unfold ask at 1.
      rewrite Hch, E1, extend_extend.
      destruct (children_of v mw) as [ds|e].
      2:{ exists p1, p2, []. repeat split; try apply Forall_nil; try assumption; tidy_trace. }
      match goal with
      | |- context [search_children env ds d2 ?w0] =>
          destruct (search_children_runs ds d2 w0) as [p3 [P3 H3]]
      end.
      rewrite H3, extend_extend.
      exists p1, p2, p3. repeat split; try assumption.
      destruct (children_tier v ds) as [d3| |e]; tidy_trace.
    + exists p1, p2, []. repeat split; try apply Forall_nil; try assumption; tidy_trace.
  - exists p1, [], []. repeat split; try apply Forall_nil; try assumption; tidy_trace.
Qed.

End StableDialog.


End DialogTiers.


(** Asking for the top window raises while the active window is the Run
    Script dialog: the call reports the missing dialog with the text of
    that exception, and the active window is never asked for. *)
Lemma raising_tier_ends_the_search :
  fst (execute_script top_window_raises "print('hello')" with_session)
  = Ok "Failed to find or identify the 'Run Script' dialog: No windows for that process could be found" /\
  trace (snd (execute_script top_window_raises "print('hello')" with_session))
  = [Exists 2 None; IsVisible 2; Exists 2 None; NamedTemporaryFile;
     FileWrite "C:/Temp/tmpk3x9.py" "print('hello')"; FileClose "C:/Temp/tmpk3x9.py";
     IsMinimized 2; SetFocus 2; MenuSelect 2 "File->Run Script...";
     TopWindow 1; OsRemove "C:/Temp/tmpk3x9.py"] /\
  top_window_raises [] (Active 1) = Ok 9 /\
  fst (is_run_script_dialog top_window_raises 9 initial_world) = Ok true.
Proof.
  repeat split; reflexivity.
Qed.

(** ** The temporary script file *)

Section ScriptFile.

Variable env : oracle.

Lemma not_on_disk_after_filter path fs :
  existsb (String.eqb path) (filter (fun f => negb (String.eqb path f)) fs) = false.
Proof.
  induction fs as [|f rest IH]; [reflexivity|]. cbn [filter].
  destruct (String.eqb path f) eqn:E; cbn [negb]; [exact IH|].
  cbn [existsb]. now rewrite E, IH.
Qed.

(** The [finally] clause on a recorded path that is on disk: [os.remove]
    is called, and the file is gone when the call succeeds. *)
Lemma remove_script_file_effect w path :
  script_recorded path w ->
  PyStr.truthy path = true ->
  In (OsRemove path) (trace (snd (remove_script_file env w))) /\
  (is_ok (env (trace w) (OsRemove path)) = true ->
   on_disk path (snd (remove_script_file env w)) = false).
Proof.
  intros [Hp Hd] Ht.
  unfold remove_script_file, get_script_file_path, os_path_exists, try_except, os_remove.
  run. rewrite Hp. cbn. rewrite Ht. cbn. rewrite Hd. cbn.
  destruct (env (trace w) (OsRemove path)) as [u|e]; cbn.
  - split; [apply in_or_app; right; now left|]. intros _.
    unfold on_disk. cbn. apply not_on_disk_after_filter.
  - split; [apply in_or_app; right; now left | discriminate].
Qed.

Lemma bind_assoc {A B C} (m : M A) (f : A -> M B) (g : B -> M C) w :
  bind (bind m f) g w = bind m (fun a => bind (f a) g) w.
Proof. unfold bind. now destruct (m w) as [[a|e] w1]. Qed.

(** Once the text is written, the path is recorded and the file is on
    disk, whether closing the file succeeds or not. *)
Lemma write_script_file_records code w name :
  env (trace w) NamedTemporaryFile = Ok name ->
  env (trace w ++ [NamedTemporaryFile]) (FileWrite name code) = Ok tt ->
  script_recorded name (snd (write_script_file env code w)).
Proof.
  intros Hn Hw.
  unfold write_script_file, with_named_temporary_file, named_temporary_file,
    set_script_file_path, script_recorded, on_disk.
  run. rewrite Hn. cbn. rewrite Hw. cbn.
  destruct (env _ (FileClose name)); cbn; now rewrite String.eqb_refl.
Qed.

Lemma is_run_script_dialog_stays_recorded name d :
  keeps (stays_recorded name) (is_run_script_dialog env d).
Proof. unfold is_run_script_dialog. recorded_frame name. Qed.

Lemma search_children_stays_recorded name ds d :
  keeps (stays_recorded name) (search_children env ds d).
Proof.
  induction ds as [|x rest IH]; cbn [search_children].
  - recorded_frame name.
  - pose proof (is_run_script_dialog_stays_recorded name x). recorded_frame name.
Qed.

(** Nothing in lines 115-216 unrecords the path or removes the file. *)
Lemma fill_dialog_stays_recorded name a mw for_dialog path :
  keeps (stays_recorded name) (fill_dialog env a mw for_dialog path).
Proof.
  pose proof (is_run_script_dialog_stays_recorded name).
  pose proof (search_children_stays_recorded name).
  unfold fill_dialog, identify_dialog, interact, interact_failed, resolve_edit,
    resolve_button.
  recorded_frame name.
Qed.

Lemma submit_failed_stays_recorded name e :
  keeps (stays_recorded name) (submit_failed e).
Proof. unfold submit_failed. recorded_frame name. Qed.

(** In every call that acquires the session and writes the script to the
    temporary file, [os.remove] is called on that file before the call
    ends, whatever happens in between. *)
Lemma written_script_file_is_removed code w a mw w0 name :
  acquire env w = (Ok (Some (a, mw)), w0) ->
  env (trace w0) NamedTemporaryFile = Ok name ->
  env (trace w0 ++ [NamedTemporaryFile]) (FileWrite name code) = Ok tt ->
  PyStr.truthy name = true ->
  In (OsRemove name) (trace (snd (execute_script env code w))).
Proof.
  intros Hacq Hn Hw Ht.
  unfold execute_script. rewrite (run_bind_ok _ _ _ _ _ Hacq). rewrite run_bind.
  cbn [set_script_file_path].
  match goal with |- context [try_finally _ _ ?x] => set (w1 := x) end.
  pose proof (write_script_file_records code w1 name Hn Hw) as Hrec.
  unfold try_finally.
  assert (Hkeep : script_recorded name
                    (snd (try_except (submit env code a mw) any_exception submit_failed w1))).
  { unfold try_except, submit, open_run_script. rewrite !bind_assoc. rewrite run_bind.
    destruct (write_script_file env code w1) as [[path|e] wA]; cbn [snd] in Hrec.
    - match goal with
      | |- context [bind ?m ?k wA] =>
          assert (Hk : keeps (stays_recorded name) (bind m k))
      end.
      { pose proof (fill_dialog_stays_recorded name). recorded_frame name. }
      specialize (Hk wA Hrec).
      match goal with
      | |- context [bind ?m ?k wA] => destruct (bind m k wA) as [[s|e] wB]
      end; cbn [snd] in *; [exact Hk|].
      cbn [any_exception]. now apply submit_failed_stays_recorded.
    - cbn [any_exception snd]. now apply submit_failed_stays_recorded. }
  destruct (try_except (submit env code a mw) any_exception submit_failed w1) as [r w2].
  cbn [snd] in Hkeep.
  destruct (remove_script_file_effect w2 name Hkeep Ht) as [Hin _].
  destruct (remove_script_file env w2) as [[u|e] w3]; exact Hin.
Qed.

End ScriptFile.

(** C7, the failing input: a script whose text cannot be written (its
    literal '\ud800' is a lone surrogate, which the UTF-8 encoder of the
    file refuses).  The temporary file is created, [write] raises before
    the path is recorded in [script_file_path], the outer handler reports
    the error, and the [finally] clause, finding no recorded path, does not
    call [os.remove]: the file is still on disk when the call returns. *)
Theorem script_file_survives_failed_write :
  exists w',
    execute_script write_fails "print('\ud800')" with_session
    = (Ok ("An error occurred during script execution attempt: "
             ++ "'utf-8' codec can't encode character '\ud800' in position 0: surrogates not allowed")%string,
       w') /\
    In NamedTemporaryFile (trace w') /\
    script_file_path w' = None /\
    on_disk "C:/Temp/tmpk3x9.py" w' = true /\
    ~ In (OsRemove "C:/Temp/tmpk3x9.py") (trace w').
Proof.
  eexists. split; [reflexivity|]. cbn.
  repeat split; auto 10.
  intros H. repeat (destruct H as [H|H]; [discriminate|]). exact H.
Qed.

(** ** The pane heuristic *)

Section PaneHeuristic.

Variable env : oracle.

(** On a backend whose rectangles report the height through a callable,
    as pywinauto does, the test of a visible pane raises a [TypeError]: line
    273 compares the callable itself with 100. *)
Lemma callable_height_raises pane w h wd :
  env (trace w) (IsVisible pane) = Ok true ->
  env (trace w ++ [IsVisible pane]) (Rectangle pane) = Ok (mkRect (PyCallable h) wd) ->
  fst (pane_qualifies env pane w)
  = Raise (mkExn TypeError "'>' not supported between instances of 'method' and 'int'").
Proof.
  intros Hv Hr. unfold pane_qualifies. run. rewrite Hv. cbn. now rewrite Hr.
Qed.

End PaneHeuristic.

(** C9, the failing input: the pane of the repository's own test
    [test_get_log_success_pane_heuristic], which passes every filter of the
    claim.  The pane is not selected: the height test raises, the text of
    the pane is never read, and the tool returns the report of the outer
    handler instead of the three lines.  Were the height a plain number,
    the same pane would be selected and its text returned. *)
Theorem pane_of_the_test_is_not_selected :
  fst (get_abaqus_message_log pane_of_the_test with_session)
  = Ok ("An error occurred while trying to retrieve the Abaqus message log: "
          ++ "'>' not supported between instances of 'method' and 'int'")%string /\
  ~ In (Texts 5) (trace (snd (get_abaqus_message_log pane_of_the_test with_session))) /\
  fst (pane_heuristic pane_of_the_test [5]
         (snd (acquire pane_of_the_test with_session)))
  = Raise (mkExn TypeError "'>' not supported between instances of 'method' and 'int'") /\
  fst (get_abaqus_message_log pane_with_numeric_height with_session)
  = Ok (log_banner
          ++ ("Line 1" ++ PyStr.newline ++ "Line 2" ++ PyStr.newline ++ "Line 3")
          ++ log_footer)%string.
Proof.
  repeat split.
  cbn. intros H. repeat (destruct H as [H|H]; [discriminate|]). exact H.
Qed.

(** ** Further properties of the locator *)

Section CheckedSession.

Variable env : oracle.

(** A cache hit is the two checks, both answered true, on the cached
    window. *)
Lemma cache_hit_checked w w0 :
  cache_hit env w = (Ok true, w0) ->
  exists a mw,
    caches w = (Some a, Some mw) /\
    env (trace w) (Exists mw None) = Ok true /\
    env (trace w ++ [Exists mw None]) (IsVisible mw) = Ok true /\
    w0 = extend [Exists mw None; IsVisible mw] w.
Proof.
  unfold cache_hit, get_app_cache, get_window_cache, caches. run.
  destruct (abaqus_app_instance_cache w) as [a|];
    destruct (abaqus_main_window_cache w) as [mw|]; cbn; try discriminate.
  destruct (env (trace w) (Exists mw None)) as [[|]|e] eqn:He; cbn; try discriminate.
  destruct (env (trace w ++ [Exists mw None]) (IsVisible mw)) as [[|]|e] eqn:Hv;
    cbn; try discriminate.
  intros [= <-]. exists a, mw. repeat split; try assumption.
  unfold log, extend. cbn. now rewrite <- app_assoc.
Qed.

(** The connection attempt returns a pair only after its window answered
    true to both checks, which are then the last two calls made. *)
Lemma connect_window_checked win w a mw w' :
  connect_window env win w = (Ok (Some (a, mw)), w') ->
  exists h,
    trace w' = h ++ [Exists mw None; IsVisible mw] /\
    env h (Exists mw None) = Ok true /\
    env (h ++ [Exists mw None]) (IsVisible mw) = Ok true.
Proof.
  unfold connect_window. run.
  destruct (env (trace w) (Connect (hWnd win) 20)) as [a0|e] eqn:Hc; cbn;
    [|discriminate].
  destruct (env (trace w ++ [Connect (hWnd win) 20]) (AppWindow a0 (hWnd win)))
    as [mw0|e] eqn:Hw; cbn; [|discriminate].
  match goal with
  | |- context [env ?h (Exists mw0 None)] =>
      destruct (env h (Exists mw0 None)) as [[|]|e] eqn:He; cbn; try discriminate;
      destruct (env (h ++ [Exists mw0 None]) (IsVisible mw0)) as [[|]|e] eqn:Hv;
      cbn; try discriminate; intros [= <- <- <-]; exists h
  end.
  cbn. repeat split; try assumption. now rewrite <- app_assoc.
Qed.

(** X1: a session that the locator returns has just passed both checks:
    the last two calls made are [exists()] and [is_visible()] on the
    returned window, both answered true, and the cache holds the returned
    pair. *)
Theorem returned_session_was_just_checked w a mw w' :
  find_abaqus_window_and_app env w = (Ok (Some a, Some mw), w') ->
  exists h,
    trace w' = h ++ [Exists mw None; IsVisible mw] /\
    env h (Exists mw None) = Ok true /\
    env (h ++ [Exists mw None]) (IsVisible mw) = Ok true /\
    caches w' = (Some a, Some mw).
Proof.
  intros Hf. pose proof (find_outcome env w) as Ho. rewrite Hf in Ho.
  revert Hf. unfold find_abaqus_window_and_app. rewrite run_bind.
  destruct (cache_hit env w) as [[[|]|e] w0] eqn:Hh; [| |discriminate].
  - destruct (cache_hit_checked w w0 Hh) as [a0 [mw0 [Hc [He [Hv ->]]]]].
    unfold get_app_cache, get_window_cache. run.
    unfold caches in Hc. injection Hc as Ha Hm. rewrite Ha, Hm.
    intros [= <- <- <-]. exists (trace w). now repeat split.
  - unfold discover. rewrite run_bind. cbn [set_app_cache]. rewrite run_bind.
    cbn [set_window_cache]. rewrite run_bind.
    destruct (locate env _) as [[[win|]|e] w1]; [| discriminate | discriminate].
    rewrite run_bind. unfold try_except.
    destruct (connect_window env win w1) as [[[[a1 mw1]|]|e] w2] eqn:Hcw;
      cbn; try discriminate.
    intros [= <- <- <-].
    destruct (connect_window_checked win w1 a1 mw1 w2 Hcw) as [h [Ht [He Hv]]].
    exists h. now repeat split.
Qed.

(** The fast path of lines 39-41. *)
Lemma valid_cache_is_returned w a mw :
  caches w = (Some a, Some mw) ->
  env (trace w) (Exists mw None) = Ok true ->
  env (trace w ++ [Exists mw None]) (IsVisible mw) = Ok true ->
  find_abaqus_window_and_app env w
  = (Ok (Some a, Some mw), extend [Exists mw None; IsVisible mw] w).
Proof.
  intros Hc He Hv. unfold caches in Hc. injection Hc as Ha Hm.
  unfold find_abaqus_window_and_app, cache_hit, get_app_cache, get_window_cache. run.
  rewrite Ha, Hm. cbn. rewrite He. cbn. rewrite Hv. cbn.
  unfold log, extend. cbn. rewrite Ha, Hm. now rewrite <- app_assoc.
Qed.

(** X2: a session the locator has returned is reused by the next call as
    long as its window still exists and is visible: the next call returns
    the same pair after the two checks, without any other call. *)
Theorem returned_session_is_reused w a mw w' :
  find_abaqus_window_and_app env w = (Ok (Some a, Some mw), w') ->
  env (trace w') (Exists mw None) = Ok true ->
  env (trace w' ++ [Exists mw None]) (IsVisible mw) = Ok true ->
  find_abaqus_window_and_app env w'
  = (Ok (Some a, Some mw), extend [Exists mw None; IsVisible mw] w').
Proof.
  intros Hf He Hv. pose proof (find_outcome env w) as Ho. rewrite Hf in Ho.
  now apply valid_cache_is_returned.
Qed.

End CheckedSession.

(** The discovery on the desktop of the three windows returns the session
    (1, 2), whose window has just been checked. *)
Lemma returned_session_was_just_checked_witness :
  exists h,
    trace (snd (find_abaqus_window_and_app desktop initial_world))
    = h ++ [Exists 2 None; IsVisible 2] /\
    desktop h (Exists 2 None) = Ok true /\
    desktop (h ++ [Exists 2 None]) (IsVisible 2) = Ok true /\
    caches (snd (find_abaqus_window_and_app desktop initial_world)) = (Some 1, Some 2).
Proof.
  apply (returned_session_was_just_checked desktop initial_world 1 2).
  reflexivity.
Defined.

(** After the discovery on the desktop of the three windows, the next call
    returns the session (1, 2) from the cache. *)
Lemma returned_session_is_reused_witness :
  fst (find_abaqus_window_and_app desktop
         (snd (find_abaqus_window_and_app desktop initial_world)))
  = Ok (Some 1, Some 2).
Proof.
  refine (f_equal fst
            (returned_session_is_reused desktop initial_world 1 2 _ _ _ _));
    reflexivity.
Defined.

(** ** The log tool only observes *)

Lemma only_observed_refl w : only_observed w w.
Proof. split; [reflexivity | apply grows_refl]. Qed.

Lemma only_observed_trans w1 w2 w3 :
  only_observed w1 w2 -> only_observed w2 w3 -> only_observed w1 w3.
Proof.
  intros [F1 G1] [F2 G2]. split; [congruence | eapply grows_trans; eauto].
Qed.

Lemma ask_only_observed env c : observing c -> keeps only_observed (ask env c).
Proof. intros Hc w. split; [reflexivity | now apply ask_grows]. Qed.

Lemma set_app_cache_only_observed v : keeps only_observed (set_app_cache v).
Proof. intros w. split; [reflexivity | apply set_app_cache_grows]. Qed.

Lemma set_window_cache_only_observed v : keeps only_observed (set_window_cache v).
Proof. intros w. split; [reflexivity | apply set_window_cache_grows]. Qed.

#[export] Hint Resolve set_app_cache_only_observed set_window_cache_only_observed : frames.

Ltac observed_step :=
  first
    [ match goal with
      | |- keeps only_observed (ask ?e ?c) => exact (ask_only_observed e c eq_refl)
      end
    | frame_step only_observed_refl only_observed_trans ].

Ltac observed_frame := repeat (unfold_calls; observed_step).

Section LogToolObserves.

Variable env : oracle.

Lemma scan_windows_only_observed windows : keeps only_observed (scan_windows env windows).
Proof.
  induction windows as [|win rest IH]; cbn [scan_windows]; unfold owned_by_abaqus;
    observed_frame.
Qed.

Lemma find_only_observed : keeps only_observed (find_abaqus_window_and_app env).
Proof.
  pose proof scan_windows_only_observed.
  unfold find_abaqus_window_and_app, cache_hit, discover, locate, connect_window.
  observed_frame.
Qed.

Lemma pane_heuristic_only_observed panes : keeps only_observed (pane_heuristic env panes).
Proof.
  induction panes as [|x rest IH]; cbn [pane_heuristic]; unfold pane_qualifies;
    observed_frame.
Qed.

Lemma edit_heuristic_only_observed edits : keeps only_observed (edit_heuristic env edits).
Proof.
  induction edits as [|x rest IH]; cbn [edit_heuristic]; unfold edit_qualifies;
    observed_frame.
Qed.

(** X3: [get_abaqus_message_log] only observes: whatever the collaborators
    answer and however the call ends, every call it makes is a query
    (enumeration, process lookup, connection, existence, visibility,
    descendants, rectangle, class name, texts, window text); it never sets
    the focus, selects a menu, types, clicks or closes, and the files on
    disk are as they were. *)
Theorem log_tool_only_observes (w : world) :
  files (snd (get_abaqus_message_log env w)) = files w /\
  forall c,
    In c (trace (snd (get_abaqus_message_log env w))) ->
    In c (trace w) \/ observes c = true.
Proof.
  assert (H : keeps only_observed (get_abaqus_message_log env)).
  { pose proof find_only_observed. pose proof pane_heuristic_only_observed.
    pose proof edit_heuristic_only_observed.
    unfold get_abaqus_message_log, acquire, window_not_found, scrape, extract,
      scrape_failed.
    observed_frame. }
  destruct (H w) as [Hf Hg]. split; [exact Hf|].
  intros c Hc. exact (grows_In _ _ _ _ Hg Hc).
Qed.

End LogToolObserves.

(** ** A missing window, and the call after a cleared cache *)

Section MissingWindow.

Variable env : oracle.

Lemma acquire_only_observed : keeps only_observed (acquire env).
Proof. pose proof (find_only_observed env). unfold acquire. observed_frame. Qed.

(** X4: when [execute_script] reports the missing window it has done
    nothing but query: no temporary file was created, the files on disk are
    as they were, no focus, menu, typing or click was sent, and the cache
    is cleared. *)
Theorem missing_window_report_has_no_side_effect code w s w' :
  execute_script env code w = (Ok s, w') ->
  reports_missing_window s = true ->
  s = window_missing_for_script /\
  files w' = files w /\
  caches w' = (None, None) /\
  forall c, In c (trace w') -> In c (trace w) \/ observes c = true.
Proof.
  intros Hrun Hs. pose proof (execute_script_outcome env code w) as Ho.
  pose proof (acquire_only_observed w) as [Hf Hg].
  destruct (acquire env w) as [[[session|]|e] w0]; cbn [snd] in *.
  - destruct Ho as [s1 [w1 [Ho Hc]]]. rewrite Ho in Hrun. injection Hrun as <- <-.
    destruct Hc as [[Hr _]|[Hr _]].
    + destruct Hr; discriminate.
    + destruct Hr; discriminate.
  - rewrite Ho in Hrun. injection Hrun as <- <-. repeat split; try assumption.
    intros c Hc. exact (grows_In _ _ _ _ Hg Hc).
  - rewrite Ho in Hrun. discriminate.
Qed.

(** With an empty cache the locator makes no check: its first call is the
    enumeration of the windows. *)
Lemma empty_cache_enumerates_first w :
  caches w = (None, None) ->
  exists evs,
    trace (snd (find_abaqus_window_and_app env w))
    = trace w ++ GetWindowsWithTitle "Abaqus/CAE" :: evs.
Proof.
  intros Hc. unfold caches in Hc. injection Hc as Ha Hm.
  assert (Hh : cache_hit env w = (Ok false, w)).
  { unfold cache_hit, get_app_cache, get_window_cache. run. now rewrite Ha. }
  unfold find_abaqus_window_and_app. rewrite (run_bind_ok _ _ _ _ _ Hh).
  apply discover_enumerates.
Qed.

(** X5: after a call of either tool that reported a missing window or a
    caught exception, the next call of the locator does not look at any
    earlier window: the first thing it does is enumerate the windows. *)
Theorem after_a_caught_error_the_windows_are_enumerated code w :
  (forall s w',
     execute_script env code w = (Ok s, w') ->
     reports_missing_window s || reports_caught_exception s = true ->
     exists evs,
       trace (snd (find_abaqus_window_and_app env w'))
       = trace w' ++ GetWindowsWithTitle "Abaqus/CAE" :: evs) /\
  (forall s w',
     get_abaqus_message_log env w = (Ok s, w') ->
     reports_missing_window s || reports_caught_exception s = true ->
     exists evs,
       trace (snd (find_abaqus_window_and_app env w'))
       = trace w' ++ GetWindowsWithTitle "Abaqus/CAE" :: evs).
Proof.
  pose proof (execute_script_outcome env code w) as He.
  pose proof (get_abaqus_message_log_outcome env w) as Hl.
  destruct (acquire env w) as [[[session|]|e] w0].
  - destruct He as [s1 [w1 [He H1]]]. destruct Hl as [s2 [w2 [Hl H2]]].
    split; intros s w'; [rewrite He | rewrite Hl]; intros [= <- <-] Hs;
      apply empty_cache_enumerates_first.
    + destruct H1 as [[_ Hc]|[Hr _]]; [exact Hc|].
      rewrite (dialog_report_not_caught _ Hr) in Hs. discriminate.
    + destruct H2 as [[_ Hc]|[Hr _]]; [exact Hc|].
      rewrite (scrape_report_not_caught _ Hr) in Hs. discriminate.
  - split; intros s w'; [rewrite He | rewrite Hl]; intros [= <- <-] _;
      now apply empty_cache_enumerates_first.
  - split; intros s w'; [rewrite He | rewrite Hl]; discriminate.
Qed.

End MissingWindow.

(** On the idle desktop no window is enumerated: the report is the
    missing-window one and nothing was touched. *)
Lemma missing_window_report_witness :
  files (snd (execute_script (fun _ => idle) "print('hello')" initial_world)) = [].
Proof.
  refine (proj1 (proj2 (missing_window_report_has_no_side_effect
                          (fun _ => idle) "print('hello')" initial_world _ _ eq_refl _))).
  reflexivity.
Defined.

(** After the missing-window report on the idle desktop, the locator
    enumerates first. *)
Lemma after_a_caught_error_witness :
  exists evs,
    trace (snd (find_abaqus_window_and_app (fun _ => idle)
                  (snd (execute_script (fun _ => idle) "print('hello')" initial_world))))
    = trace (snd (execute_script (fun _ => idle) "print('hello')" initial_world))
        ++ GetWindowsWithTitle "Abaqus/CAE" :: evs.
Proof.
  refine (proj1 (after_a_caught_error_the_windows_are_enumerated
                   (fun _ => idle) "print('hello')" initial_world) _ _ eq_refl _).
  reflexivity.
Defined.

(** ** What the log tool can return *)

Section LogReports.

Variable env : oracle.

Lemma returns_lift_raise {A} (Q : A -> Prop) (e : exn) : returns Q (lift (Raise e)).
Proof. intros w a. discriminate. Qed.

Section CallableHeights.

Hypothesis callable : callable_heights env.

Lemma rectangle_returns_callable e :
  returns (fun r => exists z, height r = PyCallable z) (rectangle env e).
Proof. intros w r Hr. exact (callable _ _ _ Hr). Qed.

(** Lines 273 and 288: with a callable height no control passes the
    filter; a visible one makes the comparison raise. *)
Lemma pane_never_qualifies pane : returns (fun b => b = false) (pane_qualifies env pane).
Proof.
  unfold pane_qualifies. apply returns_bind. intros [|]; [|now apply returns_ret].
  apply (returns_bind_with _ _ _ _ (rectangle_returns_callable pane)).
  intros r [z Hz]. rewrite Hz. apply returns_bind_with with (P := fun _ => False).
  - apply returns_lift_raise.
  - intros b [].
Qed.

Lemma edit_never_qualifies edit : returns (fun b => b = false) (edit_qualifies env edit).
Proof.
  unfold edit_qualifies. apply returns_bind. intros [|]; [|now apply returns_ret].
  apply returns_bind. intros [|]; cbn [negb]; [now apply returns_ret|].
  apply (returns_bind_with _ _ _ _ (rectangle_returns_callable edit)).
  intros r [z Hz]. rewrite Hz. apply returns_bind_with with (P := fun _ => False).
  - apply returns_lift_raise.
  - intros b [].
Qed.

Lemma pane_heuristic_finds_nothing panes :
  returns (fun found => found = None) (pane_heuristic env panes).
Proof.
  induction panes as [|x rest IH]; cbn [pane_heuristic]; [now apply returns_ret|].
  apply returns_bind. intros pane.
  apply (returns_bind_with _ _ _ _ (pane_never_qualifies pane)).
  intros b ->. exact IH.
Qed.

Lemma edit_heuristic_finds_nothing edits :
  returns (fun found => found = None) (edit_heuristic env edits).
Proof.
  induction edits as [|x rest IH]; cbn [edit_heuristic]; [now apply returns_ret|].
  apply returns_bind. intros edit.
  apply (returns_bind_with _ _ _ _ (edit_never_qualifies edit)).
  intros b ->. exact IH.
Qed.

Lemma scrape_finds_nothing mw :
  returns (fun s => s = message_area_not_found) (scrape env mw).
Proof.
  unfold scrape. apply returns_bind. intros panes.
  apply (returns_bind_with _ _ _ _ (pane_heuristic_finds_nothing panes)).
  intros found ->. apply returns_bind_with with (P := fun found => found = None).
  - apply returns_bind. intros edits. apply edit_heuristic_finds_nothing.
  - intros found ->. now apply returns_ret.
Qed.

(** X6: on a backend whose rectangles carry the height as a callable --
    which is how pywinauto reports it -- neither heuristic ever selects a
    control (lines 273 and 288 compare the callable itself with a number):
    [get_abaqus_message_log] never returns log content nor the empty-area
    message; it returns the window-not-found message, the
    area-not-found message, or the message of a caught exception. *)
Theorem log_tool_finds_no_area_with_callable_heights w s w' :
  get_abaqus_message_log env w = (Ok s, w') ->
  s = window_missing_for_log \/ s = message_area_not_found \/ caught_report s.
Proof.
  unfold get_abaqus_message_log. rewrite run_bind.
  destruct (acquire env w) as [[[[a mw]|]|e] w0]; [| |discriminate].
  - unfold try_except. pose proof (scrape_finds_nothing mw w0) as Hs.
    destruct (scrape env mw w0) as [[s0|e] w1]; cbn [fst] in Hs.
    + intros [= <- <-]. right. left. now apply Hs.
    + cbn [any_exception]. unfold scrape_failed. intros [= <- <-].
      right. right. constructor.
  - intros [= <- <-]. now left.
Qed.

End CallableHeights.

(** Lines 298-313: what extraction returns. *)
Lemma extract_returns control :
  returns (fun s =>
             s = message_area_not_found \/ s = message_area_empty \/
             exists c, s = (log_banner ++ c ++ log_footer)%string /\
                       PyStr.truthy c = true /\ trimmed c = true)
          (extract env control).
Proof.
  unfold extract. destruct control as [control|]; [|apply returns_ret; now left].
  apply returns_bind. intros [|]; [|apply returns_ret; now left].
  apply returns_bind. intros raw.
  apply returns_bind_with with (P := fun c => trimmed c = true).
  - destruct (PyStr.truthy (flatten_log raw)).
    + apply returns_ret. unfold flatten_log. apply strip_trimmed.
    + apply returns_bind. intros t. apply returns_ret. apply strip_trimmed.
  - intros c Hc. destruct (PyStr.truthy c) eqn:Ht; apply returns_ret.
    + right. right. exists c. now repeat split.
    + right. now left.
Qed.

(** X7: the complete list of what [get_abaqus_message_log] returns: the
    window-not-found message, the area-not-found message, the empty-area
    message, the message of a caught exception, or the banner, a content
    and the footer -- and a returned content is never empty and has no
    whitespace at either end. *)
Theorem log_tool_reports w s w' :
  get_abaqus_message_log env w = (Ok s, w') ->
  s = window_missing_for_log \/ s = message_area_not_found \/
  s = message_area_empty \/ caught_report s \/
  exists c, s = (log_banner ++ c ++ log_footer)%string /\
            PyStr.truthy c = true /\ trimmed c = true.
Proof.
  unfold get_abaqus_message_log. rewrite run_bind.
  destruct (acquire env w) as [[[[a mw]|]|e] w0]; [| |discriminate].
  - unfold try_except.
    assert (Hs : returns (fun s =>
                   s = message_area_not_found \/ s = message_area_empty \/
                   exists c, s = (log_banner ++ c ++ log_footer)%string /\
                             PyStr.truthy c = true /\ trimmed c = true)
                   (scrape env mw)).
    { unfold scrape. repeat returns_step; apply extract_returns. }
    specialize (Hs w0).
    destruct (scrape env mw w0) as [[s0|e] w1]; cbn [fst] in Hs.
    + intros [= <- <-].
      destruct (Hs s0 eq_refl) as [H|[H|H]]; [auto | auto | do 4 right; exact H].
    + cbn [any_exception]. unfold scrape_failed. intros [= <- <-].
      do 3 right. left. constructor.
  - intros [= <- <-]. now left.
Qed.

End LogReports.

(** The backend of the repository's test reports callable heights; the
    tool returns the message of the caught [TypeError]. *)
Lemma log_tool_finds_no_area_witness :
  let s := ("An error occurred while trying to retrieve the Abaqus message log: "
              ++ "'>' not supported between instances of 'method' and 'int'")%string in
  s = window_missing_for_log \/ s = message_area_not_found \/ caught_report s.
Proof.
  cbv zeta.
  refine (log_tool_finds_no_area_with_callable_heights pane_of_the_test _
            with_session _ _ eq_refl).
  intros h e r.
  do 6 (destruct e as [|e]; [intros [= <-]; eexists; reflexivity|]).
  intros [= <-]. eexists. reflexivity.
Defined.

(** With a numeric height the pane of the test is read: the content is
    the three lines. *)
Lemma log_tool_reports_witness :
  let s := (log_banner
              ++ ("Line 1" ++ PyStr.newline ++ "Line 2" ++ PyStr.newline ++ "Line 3")
              ++ log_footer)%string in
  s = window_missing_for_log \/ s = message_area_not_found \/
  s = message_area_empty \/ caught_report s \/
  exists c, s = (log_banner ++ c ++ log_footer)%string /\
            PyStr.truthy c = true /\ trimmed c = true.
Proof.
  cbv zeta.
  exact (log_tool_reports pane_with_numeric_height with_session _ _ eq_refl).
Defined.

(** ** The non-blank test and the flattening *)

Lemma lstrip_all_space s : all_space (PyStr.lstrip s) = all_space s.
Proof.
  induction s as [|c rest IH]; [reflexivity|]. cbn [PyStr.lstrip].
  destruct (PyStr.is_space c) eqn:Hc; [|reflexivity].
  cbn [all_space]. now rewrite Hc, IH.
Qed.

Lemma rstrip_truthy s : PyStr.truthy (PyStr.rstrip s) = negb (all_space s).
Proof.
  induction s as [|c rest IH]; [reflexivity|]. cbn [PyStr.rstrip all_space].
  destruct (PyStr.rstrip rest) as [|b r]; cbn [PyStr.truthy] in IH.
  - assert (Hr : all_space rest = true) by now destruct (all_space rest).
    rewrite Hr, andb_true_r. now destruct (PyStr.is_space c).
  - assert (Hr : all_space rest = false) by now destruct (all_space rest).
    now rewrite Hr, andb_false_r.
Qed.

(** [strip()] leaves something exactly when a character is not
    whitespace. *)
Lemma strip_truthy s : PyStr.truthy (PyStr.strip s) = negb (all_space s).
Proof. unfold PyStr.strip. now rewrite rstrip_truthy, lstrip_all_space. Qed.

Lemma all_space_app s1 s2 :
  all_space (s1 ++ s2) = all_space s1 && all_space s2.
Proof.
  induction s1 as [|c rest IH]; [reflexivity|]. cbn. now rewrite IH, andb_assoc.
Qed.

Lemma join_not_all_space sep l x :
  In x l -> all_space x = false -> all_space (PyStr.join sep l) = false.
Proof.
  induction l as [|y rest IH]; intros Hin Hx; [contradiction|].
  destruct rest as [|z rest'].
  - destruct Hin as [->|[]]. exact Hx.
  - change (PyStr.join sep (y :: z :: rest'))
      with (y ++ sep ++ PyStr.join sep (z :: rest'))%string.
    rewrite !all_space_app. destruct Hin as [->|Hin].
    + now rewrite Hx.
    + rewrite (IH Hin Hx). now rewrite !andb_false_r.
Qed.

Lemma any_line_nonblank_kept group :
  any_line_nonblank group = Ok true ->
  exists s, In s (map line_text (filter line_truthy group)) /\ all_space s = false.
Proof.
  induction group as [|l rest IH]; cbn [any_line_nonblank]; [discriminate|].
  destruct l as [s|]; [|discriminate].
  destruct (PyStr.truthy (PyStr.strip s)) eqn:Hs.
  - intros _. rewrite strip_truthy in Hs. apply negb_true_iff in Hs.
    exists s. split; [|exact Hs].
    cbn [filter line_truthy]. destruct s; [discriminate|]. now left.
  - intros H. destruct (IH H) as [x [Hin Hx]]. exists x. split; [|exact Hx].
    cbn [filter]. destruct (line_truthy (Some s)); [now right | exact Hin].
Qed.

Lemma has_nonblank_line_kept t :
  has_nonblank_line t = Ok true ->
  exists s, In s (kept_lines t) /\ all_space s = false.
Proof.
  induction t as [|g rest IH]; cbn [has_nonblank_line]; [discriminate|].
  change (kept_lines (g :: rest))
    with (map line_text (filter line_truthy (group_lines g)) ++ kept_lines rest).
  destruct (group_truthy g).
  - destruct (any_line_nonblank (group_lines g)) as [[|]|e] eqn:Hg; [| |discriminate].
    + intros _. destruct (any_line_nonblank_kept _ Hg) as [s [Hin Hs]].
      exists s. split; [apply in_or_app; now left | exact Hs].
    + intros H. destruct (IH H) as [s [Hin Hs]].
      exists s. split; [apply in_or_app; now right | exact Hs].
  - intros H. destruct (IH H) as [s [Hin Hs]].
    exists s. split; [apply in_or_app; now right | exact Hs].
Qed.

(** X8: a text that passes the non-blank test of the heuristics (lines
    278 and 290) never flattens to nothing: the extraction of lines 299-307
    gives a non-empty content for it. *)
Theorem nonblank_text_flattens_to_content (t : texts) :
  has_nonblank_line t = Ok true -> PyStr.truthy (flatten_log t) = true.
Proof.
  intros H. destruct (has_nonblank_line_kept t H) as [s [Hin Hs]].
  unfold flatten_log. rewrite collect_lines_spec. cbn [app].
  rewrite strip_truthy. now rewrite (join_not_all_space _ _ s Hin Hs).
Qed.

(** Two lines, the first blank: the text passes the test and flattens to
    its second line. *)
Lemma nonblank_text_flattens_witness :
  PyStr.truthy (flatten_log [Some [Some "  "; Some "Job completed"]]) = true.
Proof.
  apply nonblank_text_flattens_to_content. reflexivity.
Defined.

Section StableTexts.

Variable env : oracle.
Hypothesis stable : stable_texts env.

(** The text a control has, read at any time, passes the non-blank test. *)
Let readable (e : elem) : Prop :=
  exists t, env [] (Texts e) = Ok t /\ has_nonblank_line t = Ok true.

Lemma texts_then_test_returns e :
  returns (fun b => b = true -> readable e)
          (t <- get_texts env e ;; lift (has_nonblank_line t)).
Proof.
  intros w b. unfold get_texts, bind, ask, lift. cbn.
  destruct (env (trace w) (Texts e)) as [t|x] eqn:Ht; cbn; [|discriminate].
  intros Hb ->. exists t. split; [|exact Hb]. now rewrite (stable [] (trace w)).
Qed.

Lemma pane_qualifies_readable pane :
  returns (fun b => b = true -> readable pane) (pane_qualifies env pane).
Proof.
  pose proof (texts_then_test_returns pane).
  unfold pane_qualifies. repeat returns_step; apply returns_ret; discriminate.
Qed.

Lemma edit_qualifies_readable edit :
  returns (fun b => b = true -> readable edit) (edit_qualifies env edit).
Proof.
  pose proof (texts_then_test_returns edit).
  unfold edit_qualifies. repeat returns_step; apply returns_ret; discriminate.
Qed.

Lemma pane_heuristic_readable panes :
  returns (fun found => forall c, found = Some c -> readable c) (pane_heuristic env panes).
Proof.
  induction panes as [|x rest IH]; cbn [pane_heuristic].
  - apply returns_ret. discriminate.
  - apply returns_bind. intros pane.
    apply (returns_bind_with _ _ _ _ (pane_qualifies_readable pane)).
    intros [|] Hb; [|exact IH]. apply returns_ret. intros c [= <-]. now apply Hb.
Qed.

Lemma edit_heuristic_readable edits :
  returns (fun found => forall c, found = Some c -> readable c) (edit_heuristic env edits).
Proof.
  induction edits as [|x rest IH]; cbn [edit_heuristic].
  - apply returns_ret. discriminate.
  - apply returns_bind. intros edit.
    apply (returns_bind_with _ _ _ _ (edit_qualifies_readable edit)).
    intros [|] Hb; [|exact IH]. apply returns_ret. intros c [= <-]. now apply Hb.
Qed.

Lemma extract_readable control :
  (forall c, control = Some c -> readable c) ->
  returns (fun s => s <> message_area_empty) (extract env control).
Proof.
  intros Hc. unfold extract. destruct control as [c|];
    [|apply returns_ret; discriminate].
  destruct (Hc c eq_refl) as [t [Ht Hn]].
  apply returns_bind. intros [|]; [|apply returns_ret; discriminate].
  intros w s. unfold get_texts, bind, ask. cbn.
  rewrite (stable (trace w) []), Ht. cbn.
  rewrite (nonblank_text_flattens_to_content t Hn). cbn.
  rewrite (nonblank_text_flattens_to_content t Hn).
  intros [= <-]. discriminate.
Qed.

(** X9: when the texts of a control do not change between two reads, the
    empty-area message is never returned: a control is selected only on a
    text that passes the non-blank test, and that text, read again by the
    extraction, flattens to a content. *)
Theorem empty_area_needs_a_changing_text w s w' :
  get_abaqus_message_log env w = (Ok s, w') -> s <> message_area_empty.
Proof.
  unfold get_abaqus_message_log. rewrite run_bind.
  destruct (acquire env w) as [[[[a mw]|]|e] w0]; [| |discriminate].
  - unfold try_except.
    assert (Hs : returns (fun s => s <> message_area_empty) (scrape env mw)).
    { unfold scrape. apply returns_bind. intros panes.
      apply (returns_bind_with _ _ _ _ (pane_heuristic_readable panes)).
      intros found Hf.
      apply returns_bind_with with (P := fun found => forall c, found = Some c -> readable c).
      - destruct found as [c|]; [now apply returns_ret|].
        apply returns_bind. intros edits. apply edit_heuristic_readable.
      - intros found' Hf'. now apply extract_readable. }
    specialize (Hs w0).
    destruct (scrape env mw w0) as [[s0|e] w1]; cbn [fst] in Hs.
    + intros [= <- <-]. now apply Hs.
    + cbn [any_exception]. unfold scrape_failed. intros [= <- <-]. discriminate.
  - intros [= <- <-]. discriminate.
Qed.

End StableTexts.

(** The texts of the pane of the test do not change; with a numeric
    height the tool returns their content, not the empty-area message. *)
Lemma empty_area_needs_a_changing_text_witness :
  (log_banner
     ++ ("Line 1" ++ PyStr.newline ++ "Line 2" ++ PyStr.newline ++ "Line 3")
     ++ log_footer)%string
  <> message_area_empty.
Proof.
  refine (empty_area_needs_a_changing_text pane_with_numeric_height _
            with_session _ _ eq_refl).
  intros h1 h2 e. reflexivity.
Defined.

(** ** What is typed into the dialog *)

Lemma grows_weaken (P Q : call -> Prop) w w' :
  (forall c, P c -> Q c) -> grows P w w' -> grows Q w w'.
Proof.
  intros HPQ [evs [H F]]. exists evs. split; [exact H|].
  eapply Forall_impl; eauto.
Qed.

Lemma grows_keeps_In P w w' c : grows P w w' -> In c (trace w) -> In c (trace w').
Proof. intros [evs [H _]] Hin. rewrite H. apply in_or_app. now left. Qed.

(** Line 115 leaves no forward slash. *)
Lemma for_dialog_has_no_slash path : PyStr.contains "/" (for_dialog path) = false.
Proof.
  unfold for_dialog. induction path as [|c rest IH]; [reflexivity|].
  cbn [PyStr.replace_char PyStr.contains]. rewrite IH, orb_false_r.
  destruct (Ascii.eqb c "/") eqn:Hc.
  - reflexivity.
  - cbn [String.prefix]. destruct (ascii_dec "/" c) as [<-|]; [|reflexivity].
    now rewrite Ascii.eqb_refl in Hc.
Qed.

Ltac typing_step text :=
  first
    [ match goal with
      | |- keeps (grows (types_only text)) (ask ?e ?c) =>
          first [ exact (ask_grows e (types_only text) c I)
                | exact (ask_grows e (types_only text) c eq_refl) ]
      end
    | frame_step (grows_refl (types_only text)) (grows_trans (types_only text)) ].

Ltac typing_frame text := repeat (unfold_calls; typing_step text).

Ltac anything_step :=
  first
    [ match goal with
      | |- keeps (grows anything) (ask ?e ?c) => exact (ask_grows e anything c I)
      end
    | frame_step (grows_refl anything) (grows_trans anything) ].

Ltac anything_frame := repeat (unfold_calls; anything_step).

Section TypedText.

Variable env : oracle.

Lemma is_run_script_dialog_types text d :
  keeps (grows (types_only text)) (is_run_script_dialog env d).
Proof. unfold is_run_script_dialog. typing_frame text. Qed.

Lemma search_children_types text ds d :
  keeps (grows (types_only text)) (search_children env ds d).
Proof.
  induction ds as [|x rest IH]; cbn [search_children].
  - typing_frame text.
  - pose proof (is_run_script_dialog_types text x). typing_frame text.
Qed.

(** Lines 125-207 type nothing but the path prepared for the dialog. *)
Lemma fill_dialog_types a mw text path :
  keeps (grows (types_only text)) (fill_dialog env a mw text path).
Proof.
  pose proof (is_run_script_dialog_types text).
  pose proof (search_children_types text).
  unfold fill_dialog, identify_dialog, interact, interact_failed, resolve_edit,
    resolve_button.
  typing_frame text.
Qed.

(** The script file is written before its path is returned. *)
Lemma write_script_file_wrote code w path w' :
  write_script_file env code w = (Ok path, w') ->
  In (FileWrite path code) (trace w') /\ script_recorded path w'.
Proof.
  unfold write_script_file, with_named_temporary_file, named_temporary_file,
    set_script_file_path, script_recorded, on_disk.
  run.
  destruct (env (trace w) NamedTemporaryFile) as [name|e]; cbn; [|discriminate].
  destruct (env (trace w ++ [NamedTemporaryFile]) (FileWrite name code)) as [u|e]; cbn.
  - destruct (env _ (FileClose name)) as [u'|e]; cbn; [|discriminate].
    intros [= <- <-]. cbn. rewrite String.eqb_refl. repeat split.
    apply in_or_app. left. apply in_or_app. right. now left.
  - destruct (env _ (FileClose name)); discriminate.
Qed.

Lemma focus_and_menu_grows mw (path : string) :
  keeps (grows anything)
    (minimized <- is_minimized env mw ;;
     (if minimized then restore env mw else ret tt) ;;
     set_focus env mw ;;
     menu_select env mw "File->Run Script..." ;;
     ret path).
Proof. anything_frame. Qed.

Lemma focus_and_menu_stays_recorded name mw (path : string) :
  keeps (stays_recorded name)
    (minimized <- is_minimized env mw ;;
     (if minimized then restore env mw else ret tt) ;;
     set_focus env mw ;;
     menu_select env mw "File->Run Script..." ;;
     ret path).
Proof. recorded_frame name. Qed.

Lemma focus_and_menu_returns mw (path : string) :
  returns (fun p => p = path)
    (minimized <- is_minimized env mw ;;
     (if minimized then restore env mw else ret tt) ;;
     set_focus env mw ;;
     menu_select env mw "File->Run Script..." ;;
     ret path).
Proof. repeat returns_step; now apply returns_ret. Qed.

(** Lines 111-123 return the path of a file that was written with the
    script and whose path is recorded. *)
Lemma open_run_script_wrote code mw w path w' :
  open_run_script env code mw w = (Ok path, w') ->
  In (FileWrite path code) (trace w') /\ script_recorded path w'.
Proof.
  unfold open_run_script. rewrite run_bind.
  destruct (write_script_file env code w) as [[name|e] w1] eqn:Hw; [|discriminate].
  destruct (write_script_file_wrote code w name w1 Hw) as [Hin Hrec].
  pose proof (focus_and_menu_grows mw name w1) as Hg.
  pose proof (focus_and_menu_stays_recorded name mw name w1) as Hs.
  pose proof (focus_and_menu_returns mw name w1) as Hr.
  intros Hrun. rewrite Hrun in Hg, Hs, Hr. cbn [fst snd] in *.
  rewrite (Hr path eq_refl). split; [|now apply Hs].
  exact (grows_keeps_In _ _ _ _ Hg Hin).
Qed.

(** X10: whatever the collaborators answer, the only text that
    [execute_script] types into a control is the path of the temporary
    file it has written the script to, with every forward slash replaced
    by a backslash; a typed text has no forward slash. *)
Theorem only_the_script_path_is_typed code w e t :
  In (SetEditText e t) (trace (snd (execute_script env code w))) ->
  In (SetEditText e t) (trace w) \/
  exists name,
    t = for_dialog name /\
    PyStr.contains "/" t = false /\
    In (FileWrite name code) (trace (snd (execute_script env code w))).
Proof.
  assert (Hq : forall w1 w2, grows no_control w1 w2 ->
                 In (SetEditText e t) (trace w2) -> In (SetEditText e t) (trace w1)).
  { intros w1 w2 Hg Hin. destruct (grows_In _ _ _ _ Hg Hin) as [H|H];
      [exact H | discriminate]. }
  pose proof (execute_script_outcome env code w) as Ho.
  pose proof (acquire_grows env w) as G0.
  unfold execute_script. rewrite run_bind.
  destruct (acquire env w) as [[[[a mw]|]|x] w0]; cbn [snd] in G0.
  2: { cbn. intros Hin. left. exact (Hq _ _ G0 Hin). }
  2: { cbn. intros Hin. left. exact (Hq _ _ G0 Hin). }
  clear Ho. rewrite run_bind. cbn [set_script_file_path].
  match goal with |- context [try_finally _ _ ?x] => set (w1 := x) end.
  assert (G1 : grows no_control w w1).
  { eapply grows_trans; [exact G0|].
    apply (set_script_file_path_grows no_control None w0). }
  unfold try_finally.
  destruct (try_except (submit env code a mw) any_exception submit_failed w1)
    as [r w2] eqn:Hbody.
  pose proof (remove_script_file_quiet env w2) as G3.
  assert (Hfin : forall c, In c (trace w2) ->
                   In c (trace (snd (let (r0, w3) := remove_script_file env w2 in
                                     match r0 with
                                     | Ok _ => (r, w3)
                                     | Raise e0 => (@Raise string e0, w3)
                                     end)))).
  { intros c Hc. destruct (remove_script_file env w2) as [[u|x] w3]; cbn [snd] in *;
      exact (grows_keeps_In _ _ _ _ G3 Hc). }
  intros Hin.
  assert (Hin2 : In (SetEditText e t) (trace w2)).
  { destruct (remove_script_file env w2) as [[u|x] w3]; cbn [snd] in *;
      exact (Hq _ _ G3 Hin). }
  clear Hin.
  revert Hbody. unfold try_except, submit. rewrite run_bind.
  pose proof (open_run_script_quiet env code mw w1) as G2.
  destruct (open_run_script env code mw w1) as [[path|x] wA] eqn:Hopen; cbn [snd] in G2.
  - destruct (open_run_script_wrote code mw w1 path wA Hopen) as [Hwrote _].
    pose proof (fill_dialog_types a mw (for_dialog path) path wA) as G4.
    fold (for_dialog path).
    assert (Hcase : forall wB, grows (types_only (for_dialog path)) wA wB ->
              In (SetEditText e t) (trace wB) ->
              (forall c, In c (trace wB) -> In c (trace w2)) ->
              In (SetEditText e t) (trace w) \/
              exists name, t = for_dialog name /\ PyStr.contains "/" t = false /\
                In (FileWrite name code)
                  (trace (snd (let (r0, w3) := remove_script_file env w2 in
                               match r0 with
                               | Ok _ => (r, w3)
                               | Raise e0 => (@Raise string e0, w3)
                               end)))).
    { intros wB Hg HinB Hsub.
      destruct (grows_In _ _ _ _ Hg HinB) as [HA|Ht].
      - left. apply (Hq _ _ G1). exact (Hq _ _ G2 HA).
      - cbn in Ht. subst t. right. exists path. split; [reflexivity|].
        split; [apply for_dialog_has_no_slash|].
        apply Hfin, Hsub. exact (grows_keeps_In _ _ _ _ Hg Hwrote). }
    destruct (fill_dialog env a mw (for_dialog path) path wA) as [[s|x] wB];
      cbn [snd] in G4.
    + intros [= <- <-]. now apply (Hcase wB).
    + cbn [any_exception]. unfold submit_failed.
      rewrite run_bind. cbn [set_app_cache]. rewrite run_bind. cbn [set_window_cache].
      destruct (timeout_error x); cbn [ret]; intros [= <- <-];
        now apply (Hcase wB).
  - cbn [any_exception]. unfold submit_failed.
    rewrite run_bind. cbn [set_app_cache]. rewrite run_bind. cbn [set_window_cache].
    destruct (timeout_error x); cbn [ret]; intros [= <- <-]; cbn [trace] in Hin2;
      left; apply (Hq _ _ G1); exact (Hq _ _ G2 Hin2).
Qed.

End TypedText.
